(** * node-webserver: the static file server of [server.js]

    A shallow embedding of the [StaticServer] class: its request router,
    its cache validation, its [Range] parser and its compression
    negotiation, followed by the properties of the specification that were
    checked against it.

    Conventions of the embedding.
    - A JavaScript number is [NaN] or an exact integer [Num z].  The server
      only ever builds numbers from [parseInt] of a digit string, from a
      file size and from [+]/[-] on those.  JavaScript computes these
      exactly up to [JS.MAX_SAFE_INTEGER], 2^53 - 1, and rounds above:
      the embedding is the code up to that bound, which the size of a
      file does not reach, and a property that states the value parsed
      from a numeral not bounded by a file size has the bound as a
      hypothesis.
    - The response object [res] is a record threaded through a state and
      exception monad; an uncaught exception is the outcome [Thrown].
    - The callbacks of [fs.stat] and [fs.readdir] are run at once on the
      result of the call, against one snapshot of the filesystem.
    - Node's own functions ([mime.lookup], [Date.prototype.toUTCString],
      [url.parse], the filesystem) are the fields of a [Host] record.
    - [server.js] holds the class twice; the two copies differ in the
      constructor only ([root] with or without [__dirname] in front) and
      in the log messages of [start].  The embedding follows the first. *)

From Stdlib Require Import ZArith Bool List Lia.
From Stdlib Require Import Strings.String Strings.Ascii.
From Stdlib Require DecimalString HexadecimalString DecimalPos.
From Stdlib Require HexadecimalZ HexadecimalPos.
From stdpp Require Import gmap strings.

Open Scope Z_scope.
Open Scope string_scope.

(** ** JavaScript values *)

Module JS.

(** Numbers: [NaN] or an integer. *)
Inductive number := NaN | Num (z : Z).

#[global] Instance number_eq_dec : EqDecision number.
Proof. solve_decision. Defined.

Definition isNaN (n : number) : bool :=
  match n with NaN => true | Num _ => false end.

(** [a > b]: false as soon as one side is [NaN]. *)
Definition gtb (a b : number) : bool :=
  match a, b with
  | Num x, Num y => x >? y
  | _, _ => false
  end.

Definition gt (a b : number) : Prop :=
  match a, b with
  | Num x, Num y => x > y
  | _, _ => False
  end.

Definition sub (a b : number) : number :=
  match a, b with
  | Num x, Num y => Num (x - y)
  | _, _ => NaN
  end.

(** [String(n)], as a template literal renders a number. *)
Definition decimal (z : Z) : string :=
  DecimalString.NilZero.string_of_int (Z.to_int z).

Definition toString (n : number) : string :=
  match n with
  | NaN => "NaN"
  | Num z => decimal z
  end.

(** [n.toString(16)] *)
Definition toString16 (z : Z) : string :=
  HexadecimalString.NilZero.string_of_int (Z.to_hex_int z).

(** Truthiness of a property that is [undefined] or a string: the empty
    string is falsy like [undefined]. *)
Definition truthy (v : option string) : bool :=
  match v with
  | None => false
  | Some s => negb (String.eqb s "")
  end.

(** [a !== b] on such properties. *)
Definition strict_ne (a b : option string) : bool :=
  negb (bool_decide (a = b)).

Definition is_digit (c : ascii) : bool :=
  let n := nat_of_ascii c in ((48 <=? n) && (n <=? 57))%nat.

(** The class [\w] of regular expressions. *)
Definition is_word (c : ascii) : bool :=
  let n := nat_of_ascii c in
  (((48 <=? n) && (n <=? 57)) || ((65 <=? n) && (n <=? 90))
   || ((97 <=? n) && (n <=? 122)) || (n =? 95))%nat.

Definition digit_value (c : ascii) : Z := Z.of_nat (nat_of_ascii c) - 48.

(** The value of the leading decimal digits of [s], read after [acc]. *)
Fixpoint digits_value (acc : Z) (s : string) : Z :=
  match s with
  | String c s' =>
      if is_digit c then digits_value (10 * acc + digit_value c) s' else acc
  | EmptyString => acc
  end.

(** [Number.MAX_SAFE_INTEGER]: up to it every integer is a number of
    JavaScript, and sums and differences of such integers are exact. *)
Definition MAX_SAFE_INTEGER : Z := 2 ^ 53 - 1.

(** [parseInt(s)] for the strings the server passes, runs of digits:
    no digit gives [NaN], else the decimal value.  The value is the one
    [parseInt] returns when it is at most [MAX_SAFE_INTEGER]; for longer
    numerals JavaScript returns the nearest double instead. *)
Definition parseInt (s : string) : number :=
  match s with
  | String c _ => if is_digit c then Num (digits_value 0 s) else NaN
  | EmptyString => NaN
  end.

(** Is [s] made of decimal digits only? *)
Fixpoint all_digits (s : string) : bool :=
  match s with
  | EmptyString => true
  | String c s' => is_digit c && all_digits s'
  end.

(** [s.toLowerCase()] on ASCII. *)
Definition lower_ascii (c : ascii) : ascii :=
  let n := nat_of_ascii c in
  if ((65 <=? n) && (n <=? 90))%nat then ascii_of_nat (n + 32) else c.

Fixpoint toLowerCase (s : string) : string :=
  match s with
  | EmptyString => EmptyString
  | String c s' => String (lower_ascii c) (toLowerCase s')
  end.

(** The last character, [s[s.length - 1]]. *)
Fixpoint last_char (s : string) : option ascii :=
  match s with
  | EmptyString => None
  | String c EmptyString => Some c
  | String _ s' => last_char s'
  end.

End JS.

(** ** Regular expressions of the source *)

Module Regex.

(** A greedy run of digits: the digits taken and the text left. *)
Fixpoint take_digits (s : string) : string * string :=
  match s with
  | String c s' =>
      if JS.is_digit c
      then let '(d, rest) := take_digits s' in (String c d, rest)
      else (EmptyString, s)
  | EmptyString => (EmptyString, EmptyString)
  end.

(** [s] minus the prefix [p], when [s] starts with [p]. *)
Fixpoint strip_prefix (p s : string) : option string :=
  match p, s with
  | EmptyString, _ => Some s
  | String a p', String b s' =>
      if Ascii.eqb a b then strip_prefix p' s' else None
  | String _ _, EmptyString => None
  end.

(** The pattern of [getRange], the text [bytes=], a group of digits, a
    dash and a second group of digits, each group possibly empty, tried
    at the head of [s]: the two captures.  The first group is followed by
    a dash, which is no digit, so giving digits back never helps and the
    greedy reading is the only one. *)
Definition range_at (s : string) : option (string * string) :=
  match strip_prefix "bytes=" s with
  | None => None
  | Some s1 =>
      let '(d1, s2) := take_digits s1 in
      match s2 with
      | String "-"%char s3 => let '(d2, _) := take_digits s3 in Some (d1, d2)
      | _ => None
      end
  end.

(** [text.match] of that pattern: the captures of the leftmost match,
    [None] for [null]. *)
Fixpoint match_range (s : string) : option (string * string) :=
  match range_at s with
  | Some caps => Some caps
  | None =>
      match s with
      | String _ s' => match_range s'
      | EmptyString => None
      end
  end.

Definition boundary (prev next : option ascii) : bool :=
  let w o := match o with Some c => JS.is_word c | None => false end in
  xorb (w prev) (w next).

Definition head (s : string) : option ascii :=
  match s with String c _ => Some c | EmptyString => None end.

(** [\bw\b] tried where [s] starts, [prev] being the character before. *)
Definition word_at (w : string) (prev : option ascii) (s : string) : bool :=
  match strip_prefix w s with
  | Some rest =>
      boundary prev (head s) && boundary (JS.last_char w) (head rest)
  | None => false
  end.

(** Does the pattern [p] match at some position of [s]? *)
Fixpoint search (p : option ascii -> string -> bool)
         (prev : option ascii) (s : string) : bool :=
  p prev s ||
  match s with
  | String c s' => search p (Some c) s'
  | EmptyString => false
  end.

(** [/\b(gzip|deflate)\b/], [/\bgzip\b/] and [/\bdeflate\b/] *)
Definition gzip_or_deflate (s : string) : bool :=
  search (fun prev t => word_at "gzip" prev t || word_at "deflate" prev t)
         None s.
Definition gzip (s : string) : bool := search (word_at "gzip") None s.
Definition deflate (s : string) : bool := search (word_at "deflate") None s.

(** [s.match(re)] where [re] may be [undefined]: [RegExp(undefined)] is
    the empty pattern, which matches every string. *)
Definition match_opt (s : string) (re : option (string -> bool)) : bool :=
  match re with
  | Some r => r s
  | None => true
  end.

End Regex.

(** ** Node's [path] module (POSIX flavour) *)

Module Path.

Definition slash : ascii := "/"%char.

(** The segments between the slashes of [s]. *)
Fixpoint split (s : string) : list string :=
  match s with
  | EmptyString => [EmptyString]
  | String c s' =>
      if Ascii.eqb c slash then EmptyString :: split s'
      else match split s' with
           | seg :: segs => String c seg :: segs
           | [] => [String c EmptyString]
           end
  end.

(** One segment read by [normalizeString]; the segments kept so far are
    held last first.  Empty segments and [.] are dropped, [..] removes
    the segment before it when there is one to remove, and is kept only
    where the path may climb ([allowAboveRoot]). *)
Definition step (allowAboveRoot : bool) (kept : list string) (seg : string)
  : list string :=
  if String.eqb seg "" || String.eqb seg "." then kept
  else if String.eqb seg ".." then
    match kept with
    | top :: below =>
        if String.eqb top ".."
        then (if allowAboveRoot then seg :: kept else kept)
        else below
    | [] => if allowAboveRoot then [seg] else []
    end
  else seg :: kept.

Definition normalizeString (p : string) (allowAboveRoot : bool) : string :=
  String.concat "/" (rev (fold_left (step allowAboveRoot) (split p) [])).

Definition isAbsolute (p : string) : bool :=
  match p with
  | String c _ => Ascii.eqb c slash
  | EmptyString => false
  end.

Definition trailingSeparator (p : string) : bool :=
  match JS.last_char p with
  | Some c => Ascii.eqb c slash
  | None => false
  end.

(** [path.normalize] *)
Definition normalize (p : string) : string :=
  if String.eqb p "" then "."
  else
    let abs := isAbsolute p in
    let body := normalizeString p (negb abs) in
    if String.eqb body "" then
      (if abs then "/" else if trailingSeparator p then "./" else ".")
    else
      let body := if trailingSeparator p then body ++ "/" else body in
      if abs then "/" ++ body else body.

(** [path.join(a, b)] *)
Definition join (a b : string) : string :=
  if String.eqb a "" then (if String.eqb b "" then "." else normalize b)
  else if String.eqb b "" then normalize a
  else normalize (a ++ "/" ++ b).

(** The suffix of [s] that starts at its last dot. *)
Fixpoint from_last_dot (s : string) : option string :=
  match s with
  | EmptyString => None
  | String c s' =>
      match from_last_dot s' with
      | Some e => Some e
      | None => if Ascii.eqb c "."%char then Some s else None
      end
  end.

(** [path.extname]: from the last dot of the last segment, unless that
    dot opens the segment or the segment is [..]. *)
Definition extname (p : string) : string :=
  let segs := filter (fun seg => negb (String.eqb seg "")) (split p) in
  match last segs with
  | Some (String c rest) =>
      if String.eqb (String c rest) ".." then ""
      else match from_last_dot rest with Some e => e | None => "" end
  | _ => ""
  end.

End Path.

(** ** The host: filesystem, requests and responses *)

Module Fs.

(** [fs.Stats], with [mtime] in milliseconds since the epoch. *)
Record Stats := { size : Z; mtime : Z; isDirectory : bool }.

(** One snapshot of the filesystem.  [stat] is [None] when [fs.stat]
    reports an error; [readdir] is [inl] of the error text when
    [fs.readdir] does. *)
Record t := {
  stat : string -> option Stats;
  existsSync : string -> bool;
  readdir : string -> string + list string
}.

End Fs.

(** Modelled from the spec: [config.json], which is not part of the
    sources.  Its keys are the ones the constructor reads; [zipMatch]
    stands for the configured compressible-extension set, as the test a
    file extension must pass. *)
Module Config.
Record t := {
  port : Z;
  root : string;
  indexPage : string;
  cacheControl : bool;
  expires : bool;
  etag : bool;
  lastModified : bool;
  maxAge : Z;
  zipMatch : string -> bool
}.
End Config.

(** What the server takes from Node and from its own module scope. *)
Record Host := {
  dirname : string;                    (* __dirname *)
  config : Config.t;                   (* require('./config.json') *)
  now : Z;                             (* Date.now() *)
  toUTCString : Z -> string;           (* new Date(ms).toUTCString() *)
  mime_lookup : string -> string;      (* mime.lookup *)
  url_pathname : string -> string;     (* url.parse(u).pathname *)
  fs : Fs.t
}.

(** An incoming message; header names are in lower case, as Node
    delivers them. *)
Record Request := { url : string; headers : gmap string string }.

(** A readable stream: a file, whole or restricted to a span of offsets,
    possibly piped through a compressor. *)
Inductive stream :=
| FileStream (path : string) (range : option (JS.number * JS.number))
| Gzip (source : stream)
| Deflate (source : stream).

(** What a response was completed with. *)
Inductive body :=
| NoBody
| Text (s : string)
| Piped (s : stream).

(** The outgoing message [res].  [_headers] maps the names of the staged
    headers, in lower case, to their values, and is empty as long as none
    is staged.  [ended] lists, in order, the bodies the response was
    completed with: one entry for each [res.end] and each stream piped
    into [res]. *)
Record ServerResponse := {
  statusCode : Z;
  _headers : gmap string string;
  headersSent : bool;
  ended : list body
}.

Definition fresh_response : ServerResponse :=
  {| statusCode := 200; _headers := ∅; headersSent := false; ended := [] |}.

Inductive exn :=
| TypeError (message : string)
| ReferenceError (message : string)
| Error (message : string).

Inductive result (A : Type) :=
| Ok (a : A)
| Err (e : exn).
Arguments Ok {A} a.
Arguments Err {A} e.

(** ** The monad of a request handler: the response as state, and
    exceptions *)

Inductive outcome (A : Type) :=
| Returned (a : A) (res : ServerResponse)
| Thrown (e : exn) (res : ServerResponse).
Arguments Returned {A} a res.
Arguments Thrown {A} e res.

Definition M (A : Type) : Type := ServerResponse -> outcome A.

Definition ret {A} (a : A) : M A := fun res => Returned a res.

Definition bind {A B} (m : M A) (k : A -> M B) : M B :=
  fun res =>
    match m res with
    | Returned a res' => k a res'
    | Thrown e res' => Thrown e res'
    end.

Definition throw {A} (e : exn) : M A := fun res => Thrown e res.

Definition lift {A} (r : result A) : M A :=
  match r with
  | Ok a => ret a
  | Err e => throw e
  end.

Notation "x <- m ;; k" := (bind m (fun x => k))
  (at level 100, m at next level, k at level 200, right associativity).
Notation "m ;; k" := (bind m (fun _ => k))
  (at level 100, k at level 200, right associativity).

(** A call of an identifier that no scope binds. *)
Definition unbound {A} (name : string) : M A :=
  throw (ReferenceError (name ++ " is not defined")).

(** *** [http.ServerResponse] *)

Definition store (name value : string) (hs : gmap string string)
  : gmap string string :=
  <[JS.toLowerCase name := value]> hs.

Definition with_status (code : Z) (res : ServerResponse) : ServerResponse :=
  {| statusCode := code; _headers := _headers res;
     headersSent := headersSent res; ended := ended res |}.

Definition with_header (name value : string) (res : ServerResponse)
  : ServerResponse :=
  {| statusCode := statusCode res;
     _headers := store name value (_headers res);
     headersSent := headersSent res; ended := ended res |}.

Definition with_head (code : Z) (hs : list (string * string))
           (res : ServerResponse) : ServerResponse :=
  {| statusCode := code;
     _headers := fold_left (fun m kv => store kv.1 kv.2 m) hs (_headers res);
     headersSent := true; ended := ended res |}.

Definition completed (b : body) (res : ServerResponse) : ServerResponse :=
  {| statusCode := statusCode res; _headers := _headers res;
     headersSent := true; ended := ended res ++ [b] |}.

(** [res.statusCode = code] *)
Definition set_statusCode (code : Z) : M unit :=
  fun res => Returned tt (with_status code res).

(** [res.setHeader]: refused once the head has gone out. *)
Definition setHeader (name value : string) : M unit :=
  fun res =>
    if headersSent res
    then Thrown (Error "Can't set headers after they are sent.") res
    else Returned tt (with_header name value res).

(** [res.writeHead(code, headers)] *)
Definition writeHead (code : Z) (hs : list (string * string)) : M unit :=
  fun res =>
    if headersSent res
    then Thrown (Error "Can't set headers after they are sent.") res
    else Returned tt (with_head code hs res).

(** Completion of the response with [b]; the head goes out with it if it
    had not yet. *)
Definition complete (b : body) : M unit :=
  fun res => Returned tt (completed b res).

(** [res.end(text)], [res.end()] and [readStream.pipe(res)] *)
Definition end_ (text : option string) : M unit :=
  complete (match text with Some s => Text s | None => NoBody end).

Definition pipe (readStream : option stream) : M unit :=
  match readStream with
  | Some s => complete (Piped s)
  | None => throw (TypeError "Cannot read property 'pipe' of undefined")
  end.

Definition get_headers : M (gmap string string) :=
  fun res => Returned (_headers res) res.

(** [fs.createReadStream(path, options)] *)
Definition createReadStream (path : string)
           (range : option (JS.number * JS.number)) : stream :=
  FileStream path range.

(** The bytes of [content] at the offsets [first] to [last], both
    included: what a file stream restricted to that span delivers, for
    [0 <= first]. *)
Definition span (content : list Byte.byte) (first last : Z) : list Byte.byte :=
  take (Z.to_nat (last + 1 - first)) (drop (Z.to_nat first) content).

(** What a stream delivers: bytes as they are, or the output of a
    compressor fed with what its source delivers. *)
Inductive payload :=
| Raw (bytes : list Byte.byte)
| GzipOf (source : payload)
| DeflateOf (source : payload).

(** What a stream delivers when the file it was opened on holds
    [content]: a file stream delivers the whole content, or its span,
    which stops with the file when [last] lies beyond it.  The result is
    [None] for the bounds left to the version of Node, which are not
    settled here: [NaN], a negative [first], or [last] before [first]. *)
Fixpoint delivers (content : list Byte.byte) (s : stream) : option payload :=
  match s with
  | FileStream _ None => Some (Raw content)
  | FileStream _ (Some (JS.Num first, JS.Num last)) =>
      if (0 <=? first)%Z && (first <=? last)%Z
      then Some (Raw (span content first last))
      else None
  | FileStream _ (Some _) => None
  | Gzip source => option_map GzipOf (delivers content source)
  | Deflate source => option_map DeflateOf (delivers content source)
  end.

(** ** The class [StaticServer] *)

Record StaticServer := {
  port : Z;
  root : string;
  indexPage : string;
  enableCacheControl : bool;
  enableExpires : bool;
  enableETag : bool;
  enableLastModified : bool;
  maxAge : Z
}.

Definition constructor (host : Host) : StaticServer :=
  let config := config host in
  {| port := Config.port config;
     root := dirname host ++ Config.root config;
     indexPage := Config.indexPage config;
     enableCacheControl := Config.cacheControl config;
     enableExpires := Config.expires config;
     enableETag := Config.etag config;
     enableLastModified := Config.lastModified config;
     maxAge := Config.maxAge config |}.

(** [this.zipMatch].  The constructor assigns no such property, and no
    other line of the class does: reading it gives [undefined]. *)
Definition zipMatch (this : StaticServer) : option (string -> bool) := None.

Definition hasTrailingSlash (url : string) : bool :=
  bool_decide (JS.last_char url = Some "/"%char).

Definition dquote : string := String (ascii_of_nat 34) EmptyString.

(** The byte range of a request, as [getRange] returns it. *)
Module Range.
Record t := { start : JS.number; end_ : JS.number }.
End Range.

Section StaticServer.

Variable host : Host.
Variable this : StaticServer.

(** The method [respondError].  The two call sites of the class name it
    without [this.], see [respond] and [respondDirectory]. *)
Definition respondError (err : string) : M unit :=
  writeHead 500 [] ;;
  end_ (Some err).

Definition respondNotFound (req : Request) : M unit :=
  writeHead 404 [("Content-Type", "text/html")] ;;
  end_ (Some ("<h1>Not Found</h1><p>The requested URL " ++ url req
              ++ " was not found on this server.</p>")).

Definition generateETag (stat : Fs.Stats) : string :=
  let mtime := JS.toString16 (Fs.mtime stat) in
  let size := JS.toString16 (Fs.size stat) in
  "W/" ++ dquote ++ size ++ "-" ++ mtime ++ dquote.

Definition when (b : bool) (m : M unit) : M unit := if b then m else ret tt.

Definition setFreshHeaders (stat : Fs.Stats) : M unit :=
  let lastModified := toUTCString host (Fs.mtime stat) in
  when (enableExpires this)
       (let expireTime := toUTCString host (now host + maxAge this * 1000) in
        setHeader "Expires" expireTime) ;;
  when (enableCacheControl this)
       (setHeader "Cache-Control"
                  ("public, max-age=" ++ JS.decimal (maxAge this))) ;;
  when (enableLastModified this)
       (setHeader "Last-Modified" lastModified) ;;
  when (enableETag this)
       (setHeader "ETag" (generateETag stat)).

Definition isFresh (reqHeaders resHeaders : gmap string string) : bool :=
  let noneMatch := reqHeaders !! "if-none-match" in
  let lastModified := reqHeaders !! "if-modified-since" in
  if negb (JS.truthy noneMatch || JS.truthy lastModified) then false
  else if JS.truthy noneMatch
          && JS.strict_ne noneMatch (resHeaders !! "etag") then false
  else if JS.truthy lastModified
          && JS.strict_ne lastModified (resHeaders !! "last-modified")
       then false
  else true.

Definition shouldCompress (pathName : string) : bool :=
  Regex.match_opt (Path.extname pathName) (zipMatch this).

Definition responseNotModified : M unit :=
  set_statusCode 304 ;;
  end_ None.

(** [v.match(re)] on a header value, reached only when [v] is truthy. *)
Definition header_match (v : option string) (re : string -> bool) : bool :=
  match v with
  | Some s => re s
  | None => false
  end.

(** The result is [None] where the source falls off the end of its
    [if] chain and returns [undefined]. *)
Definition compressHandler (readStream : stream) (req : Request)
  : M (option stream) :=
  let acceptEncoding := headers req !! "accept-encoding" in
  if negb (JS.truthy acceptEncoding)
     || negb (header_match acceptEncoding Regex.gzip_or_deflate)
  then ret (Some readStream)
  else if header_match acceptEncoding Regex.gzip then
    setHeader "Content-Encoding" "gzip" ;;
    ret (Some (Gzip readStream))
  else if header_match acceptEncoding Regex.deflate then
    setHeader "Content-Encoding" "deflate" ;;
    ret (Some (Deflate readStream))
  else ret None.

Definition getRange (rangeText : string) (totalSize : Z) : result Range.t :=
  match Regex.match_range rangeText with
  | None => Err (TypeError "Cannot read property '1' of null")
  | Some (g1, g2) =>
      let start := JS.parseInt g1 in
      let end_ := JS.parseInt g2 in
      if JS.isNaN start && negb (JS.isNaN end_) then
        Ok {| Range.start := JS.sub (JS.Num totalSize) end_;
              Range.end_ := JS.Num (totalSize - 1) |}
      else if negb (JS.isNaN start) && JS.isNaN end_ then
        Ok {| Range.start := start; Range.end_ := JS.Num (totalSize - 1) |}
      else
        Ok {| Range.start := start; Range.end_ := end_ |}
  end.

(** The result is [None] for the [null] of the 416 branch. *)
Definition rangeHandler (pathName rangeText : string) (totalSize : Z)
  : M (option stream) :=
  range <- lift (getRange rangeText totalSize) ;;
  if JS.gtb (Range.start range) (JS.Num totalSize)
     || JS.gtb (Range.end_ range) (JS.Num totalSize)
     || JS.gtb (Range.start range) (Range.end_ range)
  then
    set_statusCode 416 ;;
    setHeader "Content-Range" ("bytes */" ++ JS.decimal totalSize) ;;
    end_ None ;;
    ret None
  else
    set_statusCode 206 ;;
    setHeader "Content-Range"
              ("bytes " ++ JS.toString (Range.start range) ++ "-"
               ++ JS.toString (Range.end_ range) ++ "/"
               ++ JS.decimal totalSize) ;;
    ret (Some (createReadStream pathName
                 (Some (Range.start range, Range.end_ range)))).

(** The tail of [responseFile], once the read stream is open. *)
Definition send (pathName : string) (req : Request) (readStream : stream)
  : M unit :=
  readStream <- (if shouldCompress pathName
                 then compressHandler readStream req
                 else ret (Some readStream)) ;;
  pipe readStream.

Definition responseFile (stat : Fs.Stats) (pathName : string) (req : Request)
  : M unit :=
  setHeader "Content-Type" (mime_lookup host pathName) ;;
  setHeader "Accept-Ranges" "bytes" ;;
  if JS.truthy (headers req !! "range") then
    readStream <- rangeHandler pathName (default "" (headers req !! "range"))
                               (Fs.size stat) ;;
    match readStream with
    | None => ret tt
    | Some readStream => send pathName req readStream
    end
  else
    send pathName req (createReadStream pathName None).

Definition respond (pathName : string) (req : Request) : M unit :=
  match Fs.stat (fs host) pathName with
  | None => unbound "respondError"
  | Some stat =>
      setFreshHeaders stat ;;
      resHeaders <- get_headers ;;
      if isFresh (headers req) resHeaders
      then responseNotModified
      else responseFile stat pathName req
  end.

Definition respondRedirect (req : Request) : M unit :=
  let location := url req ++ "/" in
  writeHead 301 [("Location", location); ("Content-Type", "text/html")] ;;
  end_ (Some ("Redirecting to <a href='" ++ location ++ "'>" ++ location
              ++ "</a>")).

(** [fs.statSync], which throws where [fs.stat] reports an error. *)
Definition statSync (path : string) : M Fs.Stats :=
  match Fs.stat (fs host) path with
  | Some stat => ret stat
  | None => throw (Error ("ENOENT: no such file or directory, stat '"
                          ++ path ++ "'"))
  end.

(** The loop [files.forEach] of the directory listing. *)
Fixpoint forEach_file (pathName requestPath : string) (files : list string)
         (content : string) : M string :=
  match files with
  | [] => ret content
  | file :: files' =>
      let itemLink := Path.join requestPath file in
      stat <- statSync (Path.join pathName file) ;;
      let itemLink :=
        if Fs.isDirectory stat then Path.join itemLink "/" else itemLink in
      forEach_file pathName requestPath files'
        (content ++ "<p><a href='" ++ itemLink ++ "'>" ++ file ++ "</a></p>")
  end.

(** The callback given to [fs.readdir]: [files] is [undefined] when
    [err] is set. *)
Definition readdir_callback (pathName : string) (req : Request)
           (err : option string) (files : option (list string)) : M unit :=
  match err with
  | Some _ => unbound "respondError"
  | None => ret tt
  end ;;
  let requestPath := url_pathname host (url req) in
  let content := "<h1>Index of " ++ requestPath ++ "</h1>" in
  match files with
  | None => throw (TypeError "Cannot read property 'forEach' of undefined")
  | Some files =>
      content <- forEach_file pathName requestPath files content ;;
      writeHead 200 [("Content-Type", "text/html")] ;;
      end_ (Some content)
  end.

Definition respondDirectory (pathName : string) (req : Request) : M unit :=
  let indexPagePath := Path.join pathName (indexPage this) in
  if Fs.existsSync (fs host) indexPagePath then
    respond indexPagePath req
  else
    match Fs.readdir (fs host) pathName with
    | inl err => readdir_callback pathName req (Some err) None
    | inr files => readdir_callback pathName req None (Some files)
    end.

Definition routeHandler (pathName : string) (req : Request) : M unit :=
  match Fs.stat (fs host) pathName with
  | Some stat =>
      let requestedPath := url_pathname host (url req) in
      if hasTrailingSlash requestedPath && Fs.isDirectory stat then
        respondDirectory pathName req
      else if Fs.isDirectory stat then
        respondRedirect req
      else
        respond pathName req
  | None => respondNotFound req
  end.

(** The request listener that [start] hands to [http.createServer]. *)
Definition start (req : Request) : M unit :=
  let pathName := Path.join (root this) (Path.normalize (url req)) in
  routeHandler pathName req.

End StaticServer.

(** One request served from a new response object. *)
Definition serve (host : Host) (req : Request) : outcome unit :=
  start host (constructor host) req fresh_response.

(** ** A concrete host, for running the server on examples *)

Module Demo.

Definition two (n : Z) : string :=
  if (n <? 10)%Z then "0" ++ JS.decimal n else JS.decimal n.

(** [new Date(ms).toUTCString()] for the years 1 to 9999, by the usual
    days-to-civil-date computation over eras of 400 years. *)
Definition utc_string (ms : Z) : string :=
  let days := ms / 86400000 in
  let secs := (ms mod 86400000) / 1000 in
  let z := days + 719468 in
  let era := z / 146097 in
  let doe := z - era * 146097 in
  let yoe := (doe - doe / 1460 + doe / 36524 - doe / 146096) / 365 in
  let doy := doe - (365 * yoe + yoe / 4 - yoe / 100) in
  let mp := (5 * doy + 2) / 153 in
  let d := doy - (153 * mp + 2) / 5 + 1 in
  let m := if (mp <? 10)%Z then mp + 3 else mp - 9 in
  let y := yoe + era * 400 + (if (m <=? 2)%Z then 1 else 0) in
  let day_name :=
    nth (Z.to_nat ((days + 4) mod 7))
        ["Sun"; "Mon"; "Tue"; "Wed"; "Thu"; "Fri"; "Sat"] "" in
  let month_name :=
    nth (Z.to_nat (m - 1))
        ["Jan"; "Feb"; "Mar"; "Apr"; "May"; "Jun";
         "Jul"; "Aug"; "Sep"; "Oct"; "Nov"; "Dec"] "" in
  day_name ++ ", " ++ two d ++ " " ++ month_name ++ " " ++ JS.decimal y
  ++ " " ++ two (secs / 3600) ++ ":" ++ two ((secs / 60) mod 60) ++ ":"
  ++ two (secs mod 60) ++ " GMT".

(** [url.parse(u).pathname] for a request target in origin form: the
    text before the first [?] or [#]. *)
Fixpoint pathname (u : string) : string :=
  match u with
  | EmptyString => EmptyString
  | String c u' =>
      if Ascii.eqb c "?"%char || Ascii.eqb c "#"%char then EmptyString
      else String c (pathname u')
  end.

Definition mime (path : string) : string :=
  let ext := Path.extname path in
  if String.eqb ext ".html" then "text/html"
  else if String.eqb ext ".png" then "image/png"
  else if String.eqb ext ".txt" then "text/plain"
  else "application/octet-stream".

Definition file (size : Z) : Fs.Stats :=
  {| Fs.size := size; Fs.mtime := 1500000000000; Fs.isDirectory := false |}.
Definition directory : Fs.Stats :=
  {| Fs.size := 4096; Fs.mtime := 1500000000000; Fs.isDirectory := true |}.

(** The tree: the root [/srv/www] holds [notes.txt] (10 bytes),
    [logo.png], the directory [docs] with an [index.html], the directory
    [pub] with one file and one subdirectory, and the directory [locked]
    that can be found but not read.  [/srv/etc/passwd] lies outside the
    root. *)
Definition tree : list (string * Fs.Stats) :=
  [ ("/srv/www/", directory); ("/srv/www", directory);
    ("/srv/www/notes.txt", file 10);
    ("/srv/www/logo.png", file 2048);
    ("/srv/www/docs", directory); ("/srv/www/docs/", directory);
    ("/srv/www/docs/index.html", file 120);
    ("/srv/www/pub", directory); ("/srv/www/pub/", directory);
    ("/srv/www/pub/a.txt", file 3);
    ("/srv/www/pub/sub", directory);
    ("/srv/www/locked", directory); ("/srv/www/locked/", directory);
    ("/srv/etc/passwd", file 77) ].

Definition lookup_path {A} (p : string) (l : list (string * A)) : option A :=
  snd <$> find (fun kv => String.eqb kv.1 p) l.

Definition disk : Fs.t :=
  {| Fs.stat p := lookup_path p tree;
     Fs.existsSync p := bool_decide (is_Some (lookup_path p tree));
     Fs.readdir p :=
       if String.eqb p "/srv/www/pub/" then inr ["a.txt"; "sub"]
       else if String.eqb p "/srv/www/docs/" then inr ["index.html"]
       else if String.eqb p "/srv/www/locked/"
            then inl ("EACCES: permission denied, scandir '" ++ p ++ "'")
       else inl ("ENOTDIR: not a directory, scandir '" ++ p ++ "'") |}.

(** Every cache header enabled; [.html], [.css], [.js] and [.txt]
    configured as compressible. *)
Definition settings : Config.t :=
  {| Config.port := 8080;
     Config.root := "/www";
     Config.indexPage := "index.html";
     Config.cacheControl := true;
     Config.expires := true;
     Config.etag := true;
     Config.lastModified := true;
     Config.maxAge := 3600;
     Config.zipMatch ext :=
       existsb (String.eqb ext) [".html"; ".css"; ".js"; ".txt"] |}.

Definition host : Host :=
  {| dirname := "/srv";
     config := settings;
     now := 1600000000000;
     toUTCString := utc_string;
     mime_lookup := mime;
     url_pathname := pathname;
     fs := disk |}.

Definition this : StaticServer := constructor host.

(** The content of [notes.txt]. *)
Definition ten_bytes : list Byte.byte :=
  [Byte.x30; Byte.x31; Byte.x32; Byte.x33; Byte.x34;
   Byte.x35; Byte.x36; Byte.x37; Byte.x38; Byte.x39].

Definition GET (target : string) (hs : list (string * string)) : Request :=
  {| url := target; headers := list_to_map hs |}.

(** The validators of [notes.txt]. *)
Definition notes_etag : string := "W/" ++ dquote ++ "a-15d3ef79800" ++ dquote.
Definition notes_modified : string := "Fri, 14 Jul 2017 02:40:00 GMT".

(** The same host when [pub] lists an entry, [gone], that was removed
    after the directory was read. *)
Definition racing : Host :=
  {| dirname := dirname host;
     config := config host;
     now := now host;
     toUTCString := toUTCString host;
     mime_lookup := mime_lookup host;
     url_pathname := url_pathname host;
     fs := {| Fs.stat := Fs.stat disk;
              Fs.existsSync := Fs.existsSync disk;
              Fs.readdir p :=
                if String.eqb p "/srv/www/pub/" then inr ["a.txt"; "gone"]
                else Fs.readdir disk p |} |}.

(** The part of an outcome that a client can see. *)
Definition view {A} (o : outcome A)
  : bool * Z * list (string * string) * list body :=
  match o with
  | Returned _ res =>
      (true, statusCode res, map_to_list (_headers res), ended res)
  | Thrown _ res =>
      (false, statusCode res, map_to_list (_headers res), ended res)
  end.

End Demo.

(** ** Vocabulary of the properties *)

(** The response object as the router receives it and as it leaves it. *)
Definition status_of {A} (o : outcome A) : Z :=
  match o with
  | Returned _ res => statusCode res
  | Thrown _ res => statusCode res
  end.

Definition ended_of {A} (o : outcome A) : list body :=
  match o with
  | Returned _ res => ended res
  | Thrown _ res => ended res
  end.

(** The test of [rangeHandler], as a proposition. *)
Definition out_of_bounds (range : Range.t) (totalSize : Z) : Prop :=
  JS.gt (Range.start range) (JS.Num totalSize)
  \/ JS.gt (Range.end_ range) (JS.Num totalSize)
  \/ JS.gt (Range.start range) (Range.end_ range).

(** The response of the 416 branch and of the 206 branch. *)
Definition unsatisfiable (totalSize : Z) (res : ServerResponse)
  : ServerResponse :=
  completed NoBody
    (with_header "Content-Range" ("bytes */" ++ JS.decimal totalSize)
       (with_status 416 res)).

Definition partial (range : Range.t) (totalSize : Z) (res : ServerResponse)
  : ServerResponse :=
  with_header "Content-Range"
    ("bytes " ++ JS.toString (Range.start range) ++ "-"
     ++ JS.toString (Range.end_ range) ++ "/" ++ JS.decimal totalSize)
    (with_status 206 res).

(** [setFreshHeaders] as a function on responses: each header is staged
    when its flag is on. *)
Definition stage (flag : bool) (name value : string) (res : ServerResponse)
  : ServerResponse :=
  if flag then with_header name value res else res.

Definition freshened (host : Host) (this : StaticServer) (stat : Fs.Stats)
           (res : ServerResponse) : ServerResponse :=
  stage (enableETag this) "ETag" (generateETag stat)
    (stage (enableLastModified this) "Last-Modified"
       (toUTCString host (Fs.mtime stat))
       (stage (enableCacheControl this) "Cache-Control"
          ("public, max-age=" ++ JS.decimal (maxAge this))
          (stage (enableExpires this) "Expires"
             (toUTCString host (now host + maxAge this * 1000)) res))).

(** The answer 304: status 304, the computed cache headers staged, the
    response completed once and without a body. *)
Definition not_modified (host : Host) (this : StaticServer) (stat : Fs.Stats)
           (o : outcome unit) : Prop :=
  o = Returned tt (completed NoBody
                     (with_status 304 (freshened host this stat fresh_response))).

(** The request carries a validator and every validator carried equals
    the computed one, where [carried] says which header values count as
    carried. *)
Definition validators_match (carried : option string -> Prop)
           (reqHeaders computed : gmap string string) : Prop :=
  let noneMatch := reqHeaders !! "if-none-match" in
  let modifiedSince := reqHeaders !! "if-modified-since" in
  (carried noneMatch \/ carried modifiedSince)
  /\ (carried noneMatch -> noneMatch = computed !! "etag")
  /\ (carried modifiedSince -> modifiedSince = computed !! "last-modified").

(** A header counts as carried when it is present with a value that is
    not empty: this is what the truthiness tests of [isFresh] ask. *)
Definition nonempty (v : option string) : Prop := JS.truthy v = true.

(** The freshness property with every present header counted as carried. *)
Definition freshness_as_stated (host : Host) (this : StaticServer)
           (pathName : string) (req : Request) (stat : Fs.Stats) : Prop :=
  not_modified host this stat (respond host this pathName req fresh_response)
  <-> validators_match is_Some (headers req)
        (_headers (freshened host this stat fresh_response)).

(** Plain path segments: no slash inside, and neither empty nor [.] nor
    [..]. *)
Fixpoint has_slash (s : string) : bool :=
  match s with
  | EmptyString => false
  | String c s' => Ascii.eqb c Path.slash || has_slash s'
  end.

Definition plain (seg : string) : bool :=
  negb (has_slash seg) && negb (String.eqb seg "")
  && negb (String.eqb seg ".") && negb (String.eqb seg "..").

(** The absolute path with the segments [segs]. *)
Definition rooted (segs : list string) : string :=
  "/" ++ String.concat "/" segs.

(** [p] is the directory [dir] or lies below it. *)
Definition inside (dir p : string) : Prop :=
  p = dir \/ exists rest, p = dir ++ "/" ++ rest.

(** The headers staged on the response an outcome leaves behind. *)
Definition headers_of {A} (o : outcome A) : gmap string string :=
  match o with
  | Returned _ res => _headers res
  | Thrown _ res => _headers res
  end.

(** [s] holds no character [c]. *)
Fixpoint lacks (c : ascii) (s : string) : bool :=
  match s with
  | EmptyString => true
  | String x s' => negb (Ascii.eqb x c) && lacks c s'
  end.

(** What a request leaves behind: one completed response with the head
    sent and one of the six status codes, or, when an exception escaped
    the handler, a response that was never started. *)
Definition answered_once_or_never (o : outcome unit) : Prop :=
  match o with
  | Returned _ res =>
      length (ended res) = 1%nat /\ headersSent res = true
      /\ In (statusCode res) [200; 206; 301; 304; 404; 416]
  | Thrown _ res => ended res = [] /\ headersSent res = false
  end.

(** One line of the directory listing: the link to [file] under
    [requestPath], closed by a slash when the entry is a directory. *)
Definition listing_entry (requestPath file : string) (isDirectory : bool)
  : string :=
  let link := Path.join requestPath file in
  "<p><a href='" ++ (if isDirectory then Path.join link "/" else link)
  ++ "'>" ++ file ++ "</a></p>".

(** What a response that was completed once carries to the client, for a
    file that holds [content]: nothing, or what the stream piped into the
    response delivers. *)
Definition served {A} (content : list Byte.byte) (o : outcome A)
  : option payload :=
  match ended_of o with
  | [NoBody] => Some (Raw [])
  | [Piped s] => delivers content s
  | _ => None
  end.

(** [responseFile] after its first two lines: [Content-Type] and
    [Accept-Ranges] staged. *)
Definition typed (host : Host) (pathName : string) (res : ServerResponse)
  : ServerResponse :=
  with_header "Accept-Ranges" "bytes"
    (with_header "Content-Type" (mime_lookup host pathName) res).

(** The file stream over the offsets of a range. *)
Definition ranged (pathName : string) (range : Range.t) : stream :=
  FileStream pathName (Some (Range.start range, Range.end_ range)).

(** The request names no encoding that [compressHandler] knows. *)
Definition no_token (req : Request) : Prop :=
  headers req !! "accept-encoding" = None
  \/ exists v, headers req !! "accept-encoding" = Some v
               /\ Regex.gzip v = false /\ Regex.deflate v = false.


(** The suffix range as the specification words it, for a file that
    holds [content]: for the header [bytes=-N] the parser gives the
    offsets [S - N] and [S - 1], and the request is served the last [N]
    bytes of the file. *)
Definition suffix_served_as_stated (host : Host) (this : StaticServer)
           (stat : Fs.Stats) (pathName : string) (req : Request) (N : Z)
           (content : list Byte.byte) : Prop :=
  headers req !! "range" = Some ("bytes=-" ++ JS.decimal N) ->
  let out := responseFile host this stat pathName req fresh_response in
  getRange ("bytes=-" ++ JS.decimal N) (Fs.size stat)
  = Ok {| Range.start := JS.Num (Fs.size stat - N);
          Range.end_ := JS.Num (Fs.size stat - 1) |}
  /\ status_of out = 206
  /\ exists bytes,
      served content out = Some (Raw bytes)
      /\ bytes = drop (Z.to_nat (Fs.size stat - N)) content
      /\ Z.of_nat (length bytes) = N.

(** [p] is the directory with the segments [rsegs], or a path made of
    these segments followed by further plain segments, possibly closed by
    a slash: a path that names the directory or something below it, with
    no [.] or [..] left in it. *)
Definition below (rsegs : list string) (p : string) : Prop :=
  exists more,
    Forall (fun seg => plain seg = true) more
    /\ (p = rooted (rsegs ++ more) \/ p = rooted (rsegs ++ more) ++ "/").

(** ** The embedding on examples *)

Example parseInt_010 : JS.parseInt "010" = JS.Num 10.
Proof. reflexivity. Qed.
Example match_range_suffix : Regex.match_range "bytes=-5" = Some ("", "5").
Proof. reflexivity. Qed.
Example match_range_inner : Regex.match_range "x bytes=12-x" = Some ("12", "").
Proof. reflexivity. Qed.
Example match_range_none : Regex.match_range "items=0-5" = None.
Proof. reflexivity. Qed.
Example gzip_q : Regex.gzip "deflate, gzip;q=0.5" = true.
Proof. reflexivity. Qed.
Example gzip_glued : Regex.gzip_or_deflate "xgzip, deflated" = false.
Proof. reflexivity. Qed.
Example normalize_climb : Path.normalize "/../../etc/passwd" = "/etc/passwd".
Proof. reflexivity. Qed.
Example normalize_rel : Path.normalize "a/../../b/" = "../b/".
Proof. reflexivity. Qed.
Example normalize_dots : Path.normalize "/a/./b//c/" = "/a/b/c/".
Proof. reflexivity. Qed.
Example join_root : Path.join "/srv/www" "/docs/" = "/srv/www/docs/".
Proof. reflexivity. Qed.
Example extname_html : Path.extname "/srv/www/a.b/index.html" = ".html".
Proof. reflexivity. Qed.
Example extname_hidden : Path.extname "/srv/www/.profile" = "".
Proof. reflexivity. Qed.
Example utc_epoch : Demo.utc_string 0 = "Thu, 01 Jan 1970 00:00:00 GMT".
Proof. reflexivity. Qed.
Example utc_2017 :
  Demo.utc_string 1500000000000 = "Fri, 14 Jul 2017 02:40:00 GMT".
Proof. reflexivity. Qed.
Example utc_2023 :
  Demo.utc_string 1700000000000 = "Tue, 14 Nov 2023 22:13:20 GMT".
Proof. reflexivity. Qed.
Example utc_leap :
  Demo.utc_string 951782400000 = "Tue, 29 Feb 2000 00:00:00 GMT".
Proof. reflexivity. Qed.

(** * Properties *)

(** ** Lemmas on the embedding *)

(** *** Digits and decimal numerals *)

(** The lemmas of this part and of the next are about the numbers of the
    embedding, which are exact: they speak of the code for numerals up to
    [JS.MAX_SAFE_INTEGER]. *)

Lemma take_digits_all (ds rest : string) :
  JS.all_digits ds = true ->
  (forall c rest', rest = String c rest' -> JS.is_digit c = false) ->
  Regex.take_digits (ds ++ rest) = (ds, rest).
Proof.
  intros Hds Hrest. induction ds as [|c ds IH]; simpl in *.
  - destruct rest as [|c rest']; [reflexivity|].
    simpl. now rewrite (Hrest c rest' eq_refl).
  - apply andb_true_iff in Hds as [Hc Hds].
    rewrite Hc, (IH Hds). reflexivity.
Qed.

Lemma take_digits_only (ds : string) :
  JS.all_digits ds = true -> Regex.take_digits ds = (ds, "").
Proof.
  intros Hds. induction ds as [|c ds IH]; simpl in *; [reflexivity|].
  apply andb_true_iff in Hds as [Hc Hds].
  rewrite Hc, (IH Hds). reflexivity.
Qed.

Lemma parseInt_digits (ds : string) :
  JS.all_digits ds = true -> ds <> "" ->
  JS.parseInt ds = JS.Num (JS.digits_value 0 ds).
Proof.
  intros Hds Hne. destruct ds as [|c ds]; [congruence|].
  simpl in Hds. apply andb_true_iff in Hds as [Hc _].
  unfold JS.parseInt. now rewrite Hc.
Qed.

(** The numeral that [String(n)] writes is read back by [parseInt]. *)
Lemma digits_value_uint_acc (d : Decimal.uint) (acc : positive) :
  JS.digits_value (Z.pos acc) (DecimalString.NilEmpty.string_of_uint d)
  = Z.pos (Pos.of_uint_acc d acc).
Proof.
  revert acc. induction d; intros acc; simpl; try reflexivity;
    rewrite <- IHd; f_equal;
    repeat match goal with
           | |- context [JS.digit_value ?c] =>
               let v := eval vm_compute in (JS.digit_value c) in
               change (JS.digit_value c) with v
           end; lia.
Qed.

Lemma digits_value_uint (d : Decimal.uint) :
  JS.digits_value 0 (DecimalString.NilEmpty.string_of_uint d)
  = Z.of_N (Pos.of_uint d).
Proof.
  induction d; simpl; try reflexivity; try exact IHd;
    apply (digits_value_uint_acc d).
Qed.

Lemma all_digits_uint (d : Decimal.uint) :
  JS.all_digits (DecimalString.NilEmpty.string_of_uint d) = true.
Proof. induction d; simpl; auto. Qed.

Lemma decimal_nonneg (n : Z) :
  0 <= n ->
  JS.all_digits (JS.decimal n) = true /\ JS.decimal n <> ""
  /\ JS.digits_value 0 (JS.decimal n) = n.
Proof.
  intros Hn. unfold JS.decimal.
  destruct n as [|p|p]; [repeat split; discriminate| |lia].
  pose proof (DecimalPos.Unsigned.of_to p) as Hback.
  simpl. set (d := Pos.to_uint p) in *.
  assert (Hs : DecimalString.NilZero.string_of_uint d
               = DecimalString.NilEmpty.string_of_uint d)
    by (destruct d; [discriminate Hback | reflexivity..]).
  rewrite Hs. repeat split.
  - apply all_digits_uint.
  - destruct d; [discriminate Hback | discriminate..].
  - rewrite digits_value_uint, Hback. reflexivity.
Qed.

Lemma digits_value_nonneg (s : string) (acc : Z) :
  0 <= acc -> 0 <= JS.digits_value acc s.
Proof.
  revert acc. induction s as [|c s IH]; intros acc Hacc; simpl; [exact Hacc|].
  destruct (JS.is_digit c) eqn:Hc; [|exact Hacc].
  apply IH. unfold JS.is_digit in Hc. unfold JS.digit_value.
  apply andb_true_iff in Hc as [Hlo _]. apply Nat.leb_le in Hlo. lia.
Qed.

(** *** The pattern of [getRange] on the one-sided forms *)

Lemma append_cons (c : ascii) (s t : string) :
  String c s ++ t = String c (s ++ t).
Proof. reflexivity. Qed.

Lemma append_empty (t : string) : "" ++ t = t.
Proof. reflexivity. Qed.

Ltac push_append := rewrite ?append_cons, ?append_empty.

Lemma match_range_head (s : string) (caps : string * string) :
  Regex.range_at s = Some caps -> Regex.match_range s = Some caps.
Proof. intros H. destruct s; cbn [Regex.match_range]; now rewrite H. Qed.

Lemma match_range_suffix_form (n : string) :
  JS.all_digits n = true -> Regex.match_range ("bytes=-" ++ n) = Some ("", n).
Proof.
  intros Hn. apply match_range_head. unfold Regex.range_at.
  push_append. cbn. change (JS.is_digit "-") with false. cbn.
  now rewrite (take_digits_only n Hn).
Qed.

Lemma match_range_open_form (n : string) :
  JS.all_digits n = true ->
  Regex.match_range ("bytes=" ++ n ++ "-") = Some (n, "").
Proof.
  intros Hn. apply match_range_head. unfold Regex.range_at.
  push_append. cbn. rewrite (take_digits_all n "-" Hn); [reflexivity|].
  intros c rest' [= <- _]. reflexivity.
Qed.

Lemma getRange_one_sided (totalSize : Z) (n : string) :
  JS.all_digits n = true -> n <> "" ->
  getRange ("bytes=-" ++ n) totalSize
  = Ok {| Range.start := JS.Num (totalSize - JS.digits_value 0 n);
          Range.end_ := JS.Num (totalSize - 1) |}
  /\ getRange ("bytes=" ++ n ++ "-") totalSize
     = Ok {| Range.start := JS.Num (JS.digits_value 0 n);
             Range.end_ := JS.Num (totalSize - 1) |}.
Proof.
  intros Hn Hne. unfold getRange.
  rewrite (match_range_suffix_form n Hn), (match_range_open_form n Hn).
  rewrite (parseInt_digits n Hn Hne). split; reflexivity.
Qed.

(** The same with the numeral of a number [N >= 0] in the header. *)
Lemma getRange_decimal (totalSize N : Z) :
  0 <= N ->
  getRange ("bytes=-" ++ JS.decimal N) totalSize
  = Ok {| Range.start := JS.Num (totalSize - N);
          Range.end_ := JS.Num (totalSize - 1) |}
  /\ getRange ("bytes=" ++ JS.decimal N ++ "-") totalSize
     = Ok {| Range.start := JS.Num N; Range.end_ := JS.Num (totalSize - 1) |}.
Proof.
  intros HN. destruct (decimal_nonneg N HN) as (Hd & Hne & Hv).
  destruct (getRange_one_sided totalSize _ Hd Hne) as (H1 & H2).
  rewrite Hv in H1, H2. now split.
Qed.

(** *** File spans *)

Lemma span_length (content : list Byte.byte) (first last : Z) :
  0 <= first -> first <= last -> last < Z.of_nat (length content) ->
  Z.of_nat (length (span content first last)) = last - first + 1.
Proof.
  intros H0 H1 H2. unfold span. rewrite length_take, length_drop. lia.
Qed.


Lemma span_suffix (content : list Byte.byte) (n : Z) :
  let total := Z.of_nat (length content) in
  0 <= n -> n <= total ->
  span content (total - n) (total - 1) = drop (Z.to_nat (total - n)) content
  /\ Z.of_nat (length (span content (total - n) (total - 1))) = n.
Proof.
  intros total H0 H1. unfold span.
  rewrite take_ge by (rewrite length_drop; lia).
  split; [reflexivity|]. rewrite length_drop. lia.
Qed.

(** *** The patterns of [compressHandler] *)

Lemma search_orb (p q : option ascii -> string -> bool)
      (prev : option ascii) (s : string) :
  Regex.search (fun a t => p a t || q a t) prev s
  = Regex.search p prev s || Regex.search q prev s.
Proof.
  revert prev. induction s as [|c s IH]; intros prev; simpl.
  - now rewrite !orb_false_r.
  - rewrite IH. destruct (p prev _), (q prev _); simpl;
      rewrite ?orb_true_r; reflexivity.
Qed.

(** The alternation matches exactly when one of its two words does. *)
Lemma gzip_or_deflate_split (s : string) :
  Regex.gzip_or_deflate s = Regex.gzip s || Regex.deflate s.
Proof. apply search_orb. Qed.

Lemma token_truthy (re : string -> bool) (v : string) :
  re "" = false -> re v = true -> JS.truthy (Some v) = true.
Proof. intros Hempty Hv. destruct v; [congruence | reflexivity]. Qed.

(** The [if] chain of [compressHandler] never runs out: it always returns
    a stream. *)
Lemma compressHandler_returns_stream
      (readStream : stream) (req : Request) (res : ServerResponse) :
  headersSent res = false ->
  exists s res', compressHandler readStream req res = Returned (Some s) res'
                 /\ statusCode res' = statusCode res
                 /\ ended res' = ended res.
Proof.
  intros Hsent. unfold compressHandler.
  destruct (headers req !! "accept-encoding") as [v|]; cbn [header_match].
  2: { eexists _, _. cbn. eauto. }
  rewrite gzip_or_deflate_split.
  destruct (JS.truthy (Some v)); cbn [negb orb].
  2: { eexists _, _. eauto. }
  destruct (Regex.gzip v) eqn:Hg; cbn [negb orb].
  { unfold bind, setHeader. rewrite Hsent. eexists _, _. cbn. eauto. }
  destruct (Regex.deflate v) eqn:Hd; cbn [negb orb].
  { unfold bind, setHeader. rewrite Hsent. eexists _, _. cbn. eauto. }
  eexists _, _. eauto.
Qed.

(** *** Laws of the handler monad *)

Lemma bind_ret {A B} (a : A) (k : A -> M B) : (x <- ret a ;; k x) = k a.
Proof. reflexivity. Qed.

Lemma bind_throw {A B} (e : exn) (k : A -> M B) :
  (x <- throw e ;; k x) = throw e.
Proof. reflexivity. Qed.

Lemma bind_assoc {A B C} (m : M A) (k : A -> M B) (h : B -> M C)
      (res : ServerResponse) :
  (y <- (x <- m ;; k x) ;; h y) res = (x <- m ;; y <- k x ;; h y) res.
Proof. unfold bind. now destruct (m res). Qed.

Lemma setHeader_unsent (name value : string) (res : ServerResponse) :
  headersSent res = false ->
  setHeader name value res = Returned tt (with_header name value res).
Proof. intros H. unfold setHeader. now rewrite H. Qed.

Lemma writeHead_unsent (code : Z) (hs : list (string * string))
      (res : ServerResponse) :
  headersSent res = false ->
  writeHead code hs res = Returned tt (with_head code hs res).
Proof. intros H. unfold writeHead. now rewrite H. Qed.

(** *** The range handler *)

Lemma gtb_gt (a b : JS.number) : JS.gtb a b = true <-> JS.gt a b.
Proof.
  destruct a as [|x], b as [|y]; simpl; try (split; [discriminate|tauto]).
  rewrite Z.gtb_ltb, Z.ltb_lt. lia.
Qed.

Lemma out_of_bounds_test (range : Range.t) (totalSize : Z) :
  JS.gtb (Range.start range) (JS.Num totalSize)
  || JS.gtb (Range.end_ range) (JS.Num totalSize)
  || JS.gtb (Range.start range) (Range.end_ range) = true
  <-> out_of_bounds range totalSize.
Proof.
  unfold out_of_bounds. rewrite !orb_true_iff, !gtb_gt. tauto.
Qed.

Lemma rangeHandler_cases
      (pathName rangeText : string) (totalSize : Z) (range : Range.t)
      (res : ServerResponse) :
  headersSent res = false ->
  getRange rangeText totalSize = Ok range ->
  (out_of_bounds range totalSize
   /\ rangeHandler pathName rangeText totalSize res
      = Returned None (unsatisfiable totalSize res))
  \/ (~ out_of_bounds range totalSize
      /\ rangeHandler pathName rangeText totalSize res
         = Returned (Some (FileStream pathName
                             (Some (Range.start range, Range.end_ range))))
                    (partial range totalSize res)).
Proof.
  intros Hsent Hrange. unfold rangeHandler. rewrite Hrange.
  cbn [lift]. rewrite bind_ret.
  pose proof (out_of_bounds_test range totalSize) as Htest.
  set (test := JS.gtb (Range.start range) (JS.Num totalSize) || _ || _) in *.
  destruct test.
  - left. split; [now apply Htest|].
    unfold bind, set_statusCode, setHeader. cbn. now rewrite Hsent.
  - right. split; [intros H; apply Htest in H; discriminate|].
    unfold bind, set_statusCode, setHeader. cbn. now rewrite Hsent.
Qed.

(** A header that the pattern does not match makes [getRange] index
    [null]: the handler throws before it touches the response. *)
Lemma rangeHandler_no_match (pathName rangeText : string) (totalSize : Z)
      (res : ServerResponse) :
  Regex.match_range rangeText = None ->
  rangeHandler pathName rangeText totalSize res
  = Thrown (TypeError "Cannot read property '1' of null") res.
Proof. intros H. unfold rangeHandler, getRange. now rewrite H. Qed.

(** With both sides omitted the range is [{NaN, NaN}], every comparison
    of the validation is false, and the 206 branch runs. *)
Lemma rangeHandler_both_omitted (pathName : string) (totalSize : Z)
      (res : ServerResponse) :
  headersSent res = false ->
  rangeHandler pathName "bytes=-" totalSize res
  = Returned (Some (FileStream pathName (Some (JS.NaN, JS.NaN))))
             (with_header "Content-Range"
                ("bytes NaN-NaN/" ++ JS.decimal totalSize)
                (with_status 206 res)).
Proof.
  intros Hsent.
  destruct (rangeHandler_cases pathName "bytes=-" totalSize
              {| Range.start := JS.NaN; Range.end_ := JS.NaN |} res
              Hsent eq_refl) as [[Hbad _] | [_ ->]]; [|reflexivity].
  unfold out_of_bounds in Hbad. cbn in Hbad. tauto.
Qed.

(** A literal range that ends at the total size passes the validation,
    for every size that is a safe integer. *)
Lemma rangeHandler_end_at_size (pathName : string) (totalSize : Z)
      (res : ServerResponse) :
  headersSent res = false -> 0 <= totalSize <= JS.MAX_SAFE_INTEGER ->
  rangeHandler pathName ("bytes=0-" ++ JS.decimal totalSize) totalSize res
  = Returned (Some (FileStream pathName
                      (Some (JS.Num 0, JS.Num totalSize))))
             (partial {| Range.start := JS.Num 0;
                         Range.end_ := JS.Num totalSize |} totalSize res).
Proof.
  intros Hsent [Hsize _].
  destruct (decimal_nonneg totalSize Hsize) as (Hd & Hne & Hv).
  assert (Hrange : getRange ("bytes=0-" ++ JS.decimal totalSize) totalSize
                   = Ok {| Range.start := JS.Num 0;
                           Range.end_ := JS.Num totalSize |}).
  { unfold getRange.
    assert (Hm : Regex.match_range ("bytes=0-" ++ JS.decimal totalSize)
                 = Some ("0", JS.decimal totalSize)).
    { apply match_range_head. unfold Regex.range_at. push_append. cbn.
      change (JS.is_digit "0") with true.
      change (JS.is_digit "-") with false. cbn.
      now rewrite (take_digits_only _ Hd). }
    rewrite Hm, (parseInt_digits _ Hd Hne), Hv. reflexivity. }
  destruct (rangeHandler_cases pathName _ totalSize _ res Hsent Hrange)
    as [[Hbad _] | [_ ->]]; [|reflexivity].
  unfold out_of_bounds in Hbad. cbn in Hbad. lia.
Qed.

(** A suffix longer than the file passes the validation with a negative
    start, for every size above zero. *)
Lemma rangeHandler_long_suffix (pathName : string) (totalSize N : Z)
      (res : ServerResponse) :
  headersSent res = false -> 0 < totalSize -> totalSize < N ->
  N <= JS.MAX_SAFE_INTEGER ->
  rangeHandler pathName ("bytes=-" ++ JS.decimal N) totalSize res
  = Returned (Some (FileStream pathName
                      (Some (JS.Num (totalSize - N),
                             JS.Num (totalSize - 1)))))
             (partial {| Range.start := JS.Num (totalSize - N);
                         Range.end_ := JS.Num (totalSize - 1) |}
                      totalSize res).
Proof.
  intros Hsent Hsize HN _.
  destruct (getRange_decimal totalSize N ltac:(lia)) as [Hrange _].
  destruct (rangeHandler_cases pathName _ totalSize _ res Hsent Hrange)
    as [[Hbad _] | [_ ->]]; [|reflexivity].
  unfold out_of_bounds in Hbad. cbn in Hbad. lia.
Qed.

(** *** Cache headers and the file response *)

Lemma stage_invariant (flag : bool) (name value : string)
      (res : ServerResponse) :
  headersSent (stage flag name value res) = headersSent res
  /\ statusCode (stage flag name value res) = statusCode res
  /\ ended (stage flag name value res) = ended res.
Proof. destruct flag; repeat split. Qed.

Lemma freshened_invariant (host : Host) (this : StaticServer)
      (stat : Fs.Stats) (res : ServerResponse) :
  headersSent (freshened host this stat res) = headersSent res
  /\ statusCode (freshened host this stat res) = statusCode res
  /\ ended (freshened host this stat res) = ended res.
Proof.
  unfold freshened.
  repeat match goal with
         | |- context [stage ?f ?n ?v ?r] =>
             destruct (stage_invariant f n v r) as (-> & -> & ->)
         end.
  repeat split.
Qed.

Lemma when_setHeader (flag : bool) (name value : string)
      (res : ServerResponse) :
  headersSent res = false ->
  when flag (setHeader name value) res
  = Returned tt (stage flag name value res).
Proof.
  intros H. destruct flag; [apply setHeader_unsent, H | reflexivity].
Qed.

Lemma setFreshHeaders_unsent (host : Host) (this : StaticServer)
      (stat : Fs.Stats) (res : ServerResponse) :
  headersSent res = false ->
  setFreshHeaders host this stat res
  = Returned tt (freshened host this stat res).
Proof.
  intros H. unfold setFreshHeaders, freshened, bind.
  rewrite when_setHeader by exact H.
  rewrite when_setHeader
    by (now rewrite (proj1 (stage_invariant _ _ _ _))).
  rewrite when_setHeader
    by (now rewrite !(proj1 (stage_invariant _ _ _ _))).
  rewrite when_setHeader
    by (now rewrite !(proj1 (stage_invariant _ _ _ _))).
  reflexivity.
Qed.

(** [isFresh] decides the match of the validators, a validator being
    carried when its value is not empty. *)
Lemma isFresh_spec (reqHeaders resHeaders : gmap string string) :
  isFresh reqHeaders resHeaders = true
  <-> validators_match nonempty reqHeaders resHeaders.
Proof.
  unfold isFresh, validators_match, nonempty, JS.strict_ne.
  destruct (JS.truthy (reqHeaders !! "if-none-match")) eqn:Hn,
           (JS.truthy (reqHeaders !! "if-modified-since")) eqn:Hm;
    cbn [orb negb andb];
    repeat case_bool_decide; cbn [negb];
    split; try discriminate; try tauto; intuition congruence.
Qed.

(** [this.zipMatch] is [undefined], the pattern built from it is empty,
    and every extension matches it. *)
Lemma shouldCompress_always (this : StaticServer) (pathName : string) :
  shouldCompress this pathName = true.
Proof. reflexivity. Qed.

(** Once the stream is open, [send] completes the response with it,
    compressed or not, and leaves the status alone. *)
Lemma send_outcome (this : StaticServer) (pathName : string) (req : Request)
      (readStream : stream) (res : ServerResponse) :
  headersSent res = false ->
  exists s res',
    send this pathName req readStream res = Returned tt res'
    /\ statusCode res' = statusCode res
    /\ ended res' = (ended res ++ [Piped s])%list.
Proof.
  intros Hsent. unfold send, bind.
  destruct (shouldCompress this pathName).
  - destruct (compressHandler_returns_stream readStream req res Hsent)
      as (s & res' & -> & Hstatus & Hended).
    exists s, (completed (Piped s) res'). cbn. rewrite Hended. auto.
  - exists readStream, (completed (Piped readStream) res). cbn. auto.
Qed.

(** [responseFile] answers 200, 206 or 416, or throws with the status
    still at its initial 200; it completes the response at most once. *)
Lemma responseFile_status (host : Host) (this : StaticServer)
      (stat : Fs.Stats) (pathName : string) (req : Request)
      (res : ServerResponse) :
  headersSent res = false -> statusCode res = 200 -> ended res = [] ->
  let o := responseFile host this stat pathName req res in
  (status_of o = 200 \/ status_of o = 206 \/ status_of o = 416)
  /\ (length (ended_of o) <= 1)%nat.
Proof.
  intros Hsent Hstatus Hended o.
  assert (Ho : o = responseFile host this stat pathName req res)
    by reflexivity.
  clearbody o. unfold responseFile in Ho.
  unfold bind at 1 in Ho. rewrite setHeader_unsent in Ho by exact Hsent.
  unfold bind at 1 in Ho. rewrite setHeader_unsent in Ho by exact Hsent.
  set (res2 := with_header "Accept-Ranges" _ _) in Ho.
  assert (Hsent2 : headersSent res2 = false) by exact Hsent.
  assert (Hstatus2 : statusCode res2 = 200) by exact Hstatus.
  assert (Hended2 : ended res2 = []) by exact Hended.
  clearbody res2.
  destruct (JS.truthy (headers req !! "range")).
  - unfold bind at 1 in Ho.
    destruct (getRange (default "" (headers req !! "range")) (Fs.size stat))
      as [range|e] eqn:Hrange.
    + destruct (rangeHandler_cases pathName _ _ range res2 Hsent2 Hrange)
        as [[_ Hout] | [_ Hout]]; rewrite Hout in Ho.
      * subst o. cbn. rewrite Hended2. cbn. split; [tauto | lia].
      * destruct (send_outcome this pathName req
                    (FileStream pathName
                       (Some (Range.start range, Range.end_ range)))
                    (partial range (Fs.size stat) res2) Hsent2)
          as (s & res' & Hsend & Hst & Hen).
        rewrite Hsend in Ho. subst o.
        cbn [status_of ended_of]. rewrite Hst, Hen. cbn.
        rewrite Hended2. cbn. split; [tauto | lia].
    + unfold rangeHandler in Ho. rewrite Hrange in Ho. subst o. cbn.
      rewrite Hstatus2, Hended2. cbn. split; [tauto | lia].
  - destruct (send_outcome this pathName req (createReadStream pathName None)
                           res2 Hsent2) as (s & res' & Hsend & Hst & Hen).
    rewrite Hsend in Ho. subst o.
    cbn [status_of ended_of]. rewrite Hst, Hen, Hstatus2, Hended2. cbn.
    split; [tauto | lia].
Qed.

(** What [respond] does on a file that [fs.stat] finds. *)
Lemma respond_found (host : Host) (this : StaticServer) (pathName : string)
      (req : Request) (stat : Fs.Stats) :
  Fs.stat (fs host) pathName = Some stat ->
  let staged := freshened host this stat fresh_response in
  respond host this pathName req fresh_response
  = if isFresh (headers req) (_headers staged)
    then Returned tt (completed NoBody (with_status 304 staged))
    else responseFile host this stat pathName req staged.
Proof.
  intros Hstat staged. unfold respond. rewrite Hstat.
  unfold bind at 1. rewrite setFreshHeaders_unsent by reflexivity.
  fold staged. unfold bind at 1, get_headers.
  destruct (isFresh _ _); reflexivity.
Qed.

(** *** Directories, and the number of responses *)

(** When the directory has no index page and [readdir] fails, the call of
    the unbound name [respondError] throws: nothing is written. *)
Lemma respondDirectory_readdir_fails (host : Host) (this : StaticServer)
      (pathName : string) (req : Request) (err : string)
      (res : ServerResponse) :
  Fs.existsSync (fs host) (Path.join pathName (indexPage this)) = false ->
  Fs.readdir (fs host) pathName = inl err ->
  respondDirectory host this pathName req res
  = Thrown (ReferenceError "respondError is not defined") res.
Proof.
  intros Hindex Hdir. unfold respondDirectory. now rewrite Hindex, Hdir.
Qed.

(** What does hold: no request is answered twice.  The listing loop does
    not touch the response, and every handler completes it at most
    once. *)
Lemma forEach_file_pure (host : Host) (pathName requestPath : string)
      (files : list string) (content : string) (res : ServerResponse) :
  (exists content',
      forEach_file host pathName requestPath files content res
      = Returned content' res)
  \/ (exists e,
         forEach_file host pathName requestPath files content res
         = Thrown e res).
Proof.
  revert content. induction files as [|file files IH]; intros content.
  - left. now exists content.
  - cbn [forEach_file]. unfold bind, statSync.
    destruct (Fs.stat (fs host) (Path.join pathName file)) as [stat|].
    + apply IH.
    + right. eexists. reflexivity.
Qed.

Lemma respond_at_most_once (host : Host) (this : StaticServer)
      (pathName : string) (req : Request) :
  (length (ended_of (respond host this pathName req fresh_response)) <= 1)%nat.
Proof.
  destruct (Fs.stat (fs host) pathName) as [stat|] eqn:Hstat.
  - rewrite (respond_found host this pathName req stat Hstat).
    destruct (freshened_invariant host this stat fresh_response)
      as (Hsent & Hstatus & Hended).
    destruct (isFresh _ _).
    + cbn. rewrite Hended. cbn. lia.
    + apply (responseFile_status host this stat pathName req _
               Hsent Hstatus Hended).
  - unfold respond. rewrite Hstat. cbn. lia.
Qed.

Lemma serve_at_most_once (host : Host) (req : Request) :
  (length (ended_of (serve host req)) <= 1)%nat.
Proof.
  unfold serve, start, routeHandler.
  set (this := constructor host).
  set (pathName := Path.join (root this) (Path.normalize (url req))).
  destruct (Fs.stat (fs host) pathName) as [stat|]; [|cbn; lia].
  destruct (hasTrailingSlash _ && Fs.isDirectory stat).
  - unfold respondDirectory.
    destruct (Fs.existsSync (fs host) _); [apply respond_at_most_once|].
    destruct (Fs.readdir (fs host) pathName) as [err|files]; [cbn; lia|].
    unfold readdir_callback. rewrite bind_ret. unfold bind at 1.
    destruct (forEach_file_pure host pathName
                (url_pathname host (url req)) files
                ("<h1>Index of " ++ url_pathname host (url req) ++ "</h1>")
                fresh_response) as [[content ->] | [e ->]]; cbn; lia.
  - destruct (Fs.isDirectory stat); [cbn; lia|].
    apply respond_at_most_once.
Qed.

(** *** Path segments *)

Lemma append_assoc (a b c : string) : (a ++ b) ++ c = a ++ (b ++ c).
Proof.
  induction a as [|x a IH]; push_append; [reflexivity | now rewrite IH].
Qed.

Lemma append_empty_r (a : string) : a ++ "" = a.
Proof.
  induction a as [|x a IH]; push_append; [reflexivity | now rewrite IH].
Qed.

Lemma split_nonempty (p : string) : Path.split p <> [].
Proof.
  destruct p as [|c p]; cbn; [discriminate|].
  destruct (Ascii.eqb c Path.slash); [discriminate|].
  destruct (Path.split p); discriminate.
Qed.

(** Splitting distributes over a slash. *)
Lemma split_app_slash (a b : string) :
  Path.split (a ++ "/" ++ b) = (Path.split a ++ Path.split b)%list.
Proof.
  induction a as [|c a IH].
  - reflexivity.
  - rewrite append_cons. cbn [Path.split]. rewrite IH.
    destruct (Ascii.eqb c Path.slash); [reflexivity|].
    destruct (Path.split a) eqn:Ha; [now apply split_nonempty in Ha|].
    reflexivity.
Qed.

Lemma split_no_slash (s : string) :
  has_slash s = false -> Path.split s = [s].
Proof.
  induction s as [|c s IH]; cbn; [reflexivity|].
  intros H. apply orb_false_iff in H as [Hc Hs].
  now rewrite Hc, (IH Hs).
Qed.

Lemma split_segments (p : string) :
  Forall (fun seg => has_slash seg = false) (Path.split p).
Proof.
  induction p as [|c p IH]; cbn.
  - repeat constructor.
  - destruct (Ascii.eqb c Path.slash) eqn:Hc; [constructor; auto|].
    destruct (Path.split p) as [|seg segs]; [repeat constructor; cbn; now rewrite Hc|].
    inversion IH; subst. constructor; [cbn; now rewrite Hc|assumption].
Qed.

Lemma plain_no_slash (seg : string) : plain seg = true -> has_slash seg = false.
Proof.
  unfold plain. rewrite !andb_true_iff, negb_true_iff. tauto.
Qed.

Lemma plain_nonempty (seg : string) : plain seg = true -> seg <> "".
Proof.
  unfold plain. rewrite !andb_true_iff, !negb_true_iff, String.eqb_neq. tauto.
Qed.

Lemma split_concat (segs : list string) :
  segs <> [] -> Forall (fun seg => plain seg = true) segs ->
  Path.split (String.concat "/" segs) = segs.
Proof.
  induction segs as [|s segs IH]; [congruence|]. intros _ Hall.
  inversion Hall as [|? ? Hs Hrest]; subst.
  destruct segs as [|s' segs'].
  - cbn. apply split_no_slash, plain_no_slash, Hs.
  - change (String.concat "/" (s :: s' :: segs'))
      with (s ++ "/" ++ String.concat "/" (s' :: segs')).
    rewrite split_app_slash, IH by (auto; discriminate).
    now rewrite (split_no_slash s (plain_no_slash s Hs)).
Qed.

(** On a clamped path, [step] skips every empty segment and keeps every
    plain one. *)
Lemma step_empty (kept : list string) : Path.step false kept "" = kept.
Proof. reflexivity. Qed.

Lemma step_plain (kept : list string) (seg : string) :
  plain seg = true -> Path.step false kept seg = seg :: kept.
Proof.
  unfold plain, Path.step.
  rewrite !andb_true_iff, !negb_true_iff. intros [[[_ H1] H2] H3].
  now rewrite H1, H2, H3.
Qed.

Lemma fold_step_plain (segs kept : list string) :
  Forall (fun seg => plain seg = true) segs ->
  fold_left (Path.step false) segs kept = (rev segs ++ kept)%list.
Proof.
  revert kept. induction segs as [|s segs IH]; intros kept Hall;
    [reflexivity|].
  inversion Hall; subst. cbn [fold_left rev].
  rewrite step_plain, IH by assumption. now rewrite <- app_assoc.
Qed.

(** Whatever the segments read, a clamped path keeps plain segments
    only. *)
Lemma step_keeps_plain (kept : list string) (seg : string) :
  has_slash seg = false ->
  Forall (fun s => plain s = true) kept ->
  Forall (fun s => plain s = true) (Path.step false kept seg).
Proof.
  intros Hseg Hkept. unfold Path.step.
  destruct (String.eqb seg "") eqn:H1; [exact Hkept|].
  destruct (String.eqb seg ".") eqn:H2; [exact Hkept|]. cbn [orb].
  destruct (String.eqb seg "..") eqn:H3.
  - destruct kept as [|top below]; [constructor|].
    inversion Hkept; subst.
    destruct (String.eqb top ".."); assumption.
  - constructor; [|exact Hkept].
    unfold plain. now rewrite Hseg, H1, H2, H3.
Qed.

Lemma fold_step_keeps_plain (segs kept : list string) :
  Forall (fun seg => has_slash seg = false) segs ->
  Forall (fun s => plain s = true) kept ->
  Forall (fun s => plain s = true) (fold_left (Path.step false) segs kept).
Proof.
  revert kept. induction segs as [|s segs IH]; intros kept Hsegs Hkept;
    [exact Hkept|].
  inversion Hsegs; subst. cbn [fold_left].
  apply IH; [assumption|]. now apply step_keeps_plain.
Qed.

Lemma fold_step_clean (segs : list string) :
  Forall (fun seg => seg = "" \/ plain seg = true) segs ->
  exists pushed,
    Forall (fun seg => plain seg = true) pushed
    /\ forall kept,
        fold_left (Path.step false) segs kept = (rev pushed ++ kept)%list.
Proof.
  induction segs as [|s segs IH]; intros Hall.
  - exists []. split; [constructor | reflexivity].
  - inversion Hall as [|? ? Hs Hrest]; subst.
    destruct (IH Hrest) as (pushed & Hplain & Hfold).
    destruct Hs as [-> | Hs].
    + exists pushed. split; [exact Hplain|]. intros kept.
      cbn [fold_left]. rewrite step_empty. apply Hfold.
    + exists (s :: pushed). split; [now constructor|]. intros kept.
      cbn [fold_left rev]. rewrite step_plain, Hfold by exact Hs.
      now rewrite <- app_assoc.
Qed.

Lemma concat_app_nonempty (l1 l2 : list string) :
  l1 <> [] ->
  String.concat "/" (l1 ++ l2)
  = String.concat "/" l1
    ++ match l2 with [] => "" | _ => "/" ++ String.concat "/" l2 end.
Proof.
  induction l1 as [|s l1 IH]; [congruence|]. intros _.
  destruct l1 as [|s' l1'].
  - destruct l2; cbn; [now rewrite append_empty_r | reflexivity].
  - change (String.concat "/" ((s :: s' :: l1') ++ l2))
      with (s ++ "/" ++ String.concat "/" ((s' :: l1') ++ l2)).
    rewrite IH by discriminate.
    change (String.concat "/" (s :: s' :: l1'))
      with (s ++ "/" ++ String.concat "/" (s' :: l1')).
    now rewrite !append_assoc.
Qed.

Lemma concat_plain_nonempty (s : string) (l : list string) :
  plain s = true -> exists c r, String.concat "/" (s :: l) = String c r.
Proof.
  intros Hs. apply plain_nonempty in Hs.
  destruct s as [|c s]; [congruence|].
  destruct l; cbn; eauto.
Qed.

(** The shape of a normalized rooted path: a slash, then segments that
    are plain, then possibly a closing slash. *)
Lemma normalize_absolute_split (target : string) :
  Path.isAbsolute target = true ->
  Path.normalize target <> ""
  /\ exists segs,
      Path.split (Path.normalize target) = "" :: segs
      /\ Forall (fun seg => seg = "" \/ plain seg = true) segs.
Proof.
  intros Habs. unfold Path.normalize.
  destruct target as [|c target]; [discriminate|].
  cbn [String.eqb]. rewrite Habs. cbn [negb].
  unfold Path.normalizeString.
  set (kept := fold_left (Path.step false) (Path.split (String c target)) []).
  assert (Hkept : Forall (fun s => plain s = true) (rev kept)).
  { apply Forall_rev, fold_step_keeps_plain;
      [apply split_segments | constructor]. }
  set (nsegs := rev kept) in *. clearbody nsegs. clear kept.
  destruct (String.eqb (String.concat "/" nsegs) "") eqn:Hbody.
  - split; [discriminate|]. exists [""]. split; [reflexivity|].
    constructor; [now left | constructor].
  - assert (Hne : nsegs <> []) by (intros ->; discriminate).
    assert (Hall : Forall (fun seg => seg = "" \/ plain seg = true) nsegs)
      by (eapply Forall_impl; [exact Hkept | cbn; auto]).
    destruct (Path.trailingSeparator (String c target)).
    + split; [discriminate|]. exists (nsegs ++ [""])%list. split.
      * change ("/" ++ (String.concat "/" nsegs ++ "/"))
          with (String Path.slash (String.concat "/" nsegs ++ "/" ++ "")).
        cbn [Path.split]. rewrite Ascii.eqb_refl.
        rewrite split_app_slash, split_concat by assumption. reflexivity.
      * apply Forall_app. split; [exact Hall|].
        constructor; [now left | constructor].
    + split; [discriminate|]. exists nsegs. split; [|exact Hall].
      change ("/" ++ String.concat "/" nsegs)
        with (String Path.slash (String.concat "/" nsegs)).
      cbn [Path.split]. rewrite Ascii.eqb_refl.
      now rewrite split_concat by assumption.
Qed.

(** ** The properties of the specification *)

(** *** C1: freshness *)

(** C1, amended.  For a request to a file that exists, the response is
    304 with no body and the computed cache headers staged if and only if
    the request carries a non-empty [If-None-Match] or a non-empty
    [If-Modified-Since] and each of the two that is carried non-empty is
    equal, as a string, to the computed [ETag], respectively
    [Last-Modified], header; in every other case, a request with neither
    header among them, the request goes on to [responseFile] with the
    computed headers staged, and is not answered 304. *)
Theorem respond_freshness (host : Host) (this : StaticServer)
        (pathName : string) (req : Request) (stat : Fs.Stats) :
  Fs.stat (fs host) pathName = Some stat ->
  let staged := freshened host this stat fresh_response in
  let out := respond host this pathName req fresh_response in
  (not_modified host this stat out
   <-> validators_match nonempty (headers req) (_headers staged))
  /\ (~ validators_match nonempty (headers req) (_headers staged) ->
      out = responseFile host this stat pathName req staged
      /\ status_of out <> 304)
  /\ (headers req !! "if-none-match" = None ->
      headers req !! "if-modified-since" = None ->
      ~ validators_match nonempty (headers req) (_headers staged)).
Proof.
  intros Hstat staged out. subst out.
  rewrite (respond_found host this pathName req stat Hstat). fold staged.
  pose proof (isFresh_spec (headers req) (_headers staged)) as Hfresh.
  destruct (freshened_invariant host this stat fresh_response)
    as (Hsent & Hstatus & Hended). fold staged in Hsent, Hstatus, Hended.
  pose proof (responseFile_status host this stat pathName req staged
                Hsent Hstatus Hended) as [Hcodes _].
  cbv zeta in Hcodes. unfold not_modified. fold staged.
  destruct (isFresh _ _).
  - split; [|split].
    + split; [intros _; now apply Hfresh | reflexivity].
    + intros Hno. exfalso. apply Hno. now apply Hfresh.
    + intros Hn Hm (Hsome & _). unfold nonempty in Hsome.
      rewrite Hn, Hm in Hsome. cbn in Hsome. intuition discriminate.
  - assert (Hno : ~ validators_match nonempty (headers req) (_headers staged))
      by (intros H; apply Hfresh in H; discriminate).
    split; [|split].
    + split; [|intros H; contradiction].
      intros Heq. rewrite Heq in Hcodes. cbn in Hcodes. lia.
    + intros _. split; [reflexivity | lia].
    + intros _ _. exact Hno.
Qed.

Lemma respond_freshness_witness :
  not_modified Demo.host Demo.this (Demo.file 10)
    (respond Demo.host Demo.this "/srv/www/notes.txt"
       (Demo.GET "/notes.txt" [("if-none-match", Demo.notes_etag)])
       fresh_response).
Proof.
  refine (proj2 (proj1 (respond_freshness Demo.host Demo.this
                          "/srv/www/notes.txt"
                          (Demo.GET "/notes.txt"
                             [("if-none-match", Demo.notes_etag)])
                          (Demo.file 10) eq_refl)) _).
  split; [left; reflexivity | split; [reflexivity | discriminate]].
Defined.

(** C1 as stated fails.  A request whose [If-None-Match] is present with
    an empty value and whose [If-Modified-Since] matches is answered 304,
    although a header that is present differs from the computed [ETag]. *)
Lemma freshness_as_stated_counterexample :
  ~ freshness_as_stated Demo.host Demo.this "/srv/www/notes.txt"
      (Demo.GET "/notes.txt" [("if-none-match", "");
                              ("if-modified-since", Demo.notes_modified)])
      (Demo.file 10).
Proof.
  set (req := Demo.GET "/notes.txt"
                [("if-none-match", "");
                 ("if-modified-since", Demo.notes_modified)]).
  unfold freshness_as_stated. intros [Hto _].
  assert (H304 : not_modified Demo.host Demo.this (Demo.file 10)
                   (respond Demo.host Demo.this "/srv/www/notes.txt" req
                            fresh_response))
    by (vm_compute; reflexivity).
  destruct (Hto H304) as (_ & Hetag & _).
  assert (Hpresent : is_Some (headers req !! "if-none-match"))
    by (vm_compute; eauto).
  specialize (Hetag Hpresent). vm_compute in Hetag. discriminate Hetag.
Qed.

(** *** C2 and C5: range requests

    C2 and C5 are about what [responseFile] answers to a range request,
    down to the bytes of the body.  They are settled at the end of the
    file, in the part on range requests, where the steps of
    [responseFile] are at hand. *)

(** *** C3: Range headers that do not parse *)

(** C3 fails on the code.  [Range: bytes=-] on the 10-byte [notes.txt]
    is answered 206 with [Content-Range: bytes NaN-NaN/10] and a stream
    over the span [NaN..NaN]; [Range: items=0-5] ends in an uncaught
    [TypeError] with nothing sent.  Neither request is answered 416. *)
Theorem unparsable_range_not_416 :
  (let out := serve Demo.host (Demo.GET "/notes.txt" [("range", "bytes=-")]) in
   status_of out = 206
   /\ ended_of out = [Piped (FileStream "/srv/www/notes.txt"
                                        (Some (JS.NaN, JS.NaN)))]
   /\ (exists res, out = Returned tt res
                   /\ _headers res !! "content-range"
                      = Some "bytes NaN-NaN/10"))
  /\ (let out := serve Demo.host
                       (Demo.GET "/notes.txt" [("range", "items=0-5")]) in
      status_of out = 200
      /\ ended_of out = []
      /\ exists res,
          out = Thrown (TypeError "Cannot read property '1' of null") res).
Proof.
  split; cbv zeta.
  - repeat apply conj; [reflexivity | reflexivity |].
    eexists. split; [vm_compute; reflexivity | vm_compute; reflexivity].
  - repeat apply conj; [reflexivity | reflexivity |].
    eexists. vm_compute. reflexivity.
Qed.

(** *** C4: the offsets of an accepted range *)

(** C4 fails on the code.  On the 10-byte [notes.txt], [bytes=0-10] is
    served as 206 over the span 0..10, whose end is past the last offset
    9, and [bytes=-20] is served as 206 over the span -10..9, whose start
    is negative. *)
Theorem accepted_range_outside_file :
  (let out := serve Demo.host (Demo.GET "/notes.txt" [("range", "bytes=0-10")]) in
   status_of out = 206
   /\ ended_of out = [Piped (FileStream "/srv/www/notes.txt"
                                        (Some (JS.Num 0, JS.Num 10)))]
   /\ ~ (0 <= 0 <= 10 /\ 10 <= Fs.size (Demo.file 10) - 1))
  /\ (let out := serve Demo.host
                       (Demo.GET "/notes.txt" [("range", "bytes=-20")]) in
      status_of out = 206
      /\ ended_of out = [Piped (FileStream "/srv/www/notes.txt"
                                           (Some (JS.Num (-10), JS.Num 9)))]
      /\ ~ (0 <= -10 <= 9 /\ 9 <= Fs.size (Demo.file 10) - 1)).
Proof.
  split; cbv zeta; (repeat apply conj; [reflexivity | reflexivity |]);
    cbn; lia.
Qed.

(** *** C6: the router *)

(** C6.  The router sorts a request by the result of [fs.stat] on the
    resolved path, into exactly one of four cases.  [stat] fails: 404
    with a body that names the requested URL.  A directory and a URL path
    without a trailing slash: 301 with [Location] the request URL
    followed by a slash.  A directory and a trailing slash: the index
    page of the directory goes through [respond] when it exists,
    otherwise the listing built from [readdir] is sent with 200.  Anything
    else that [stat] finds: the path goes through [respond], the
    freshness and range pipeline. *)
Theorem routeHandler_classification (host : Host) (this : StaticServer)
        (pathName : string) (req : Request) :
  let out := routeHandler host this pathName req fresh_response in
  let found := Fs.stat (fs host) pathName in
  let slash := hasTrailingSlash (url_pathname host (url req)) in
  let indexPagePath := Path.join pathName (indexPage this) in
  (found = None ->
   out = Returned tt
           (completed
              (Text ("<h1>Not Found</h1><p>The requested URL " ++ url req
                     ++ " was not found on this server.</p>"))
              (with_head 404 [("Content-Type", "text/html")] fresh_response)))
  /\ (forall stat, found = Some stat ->
      Fs.isDirectory stat = true -> slash = false ->
      out = Returned tt
              (completed
                 (Text ("Redirecting to <a href='" ++ (url req ++ "/") ++ "'>"
                        ++ (url req ++ "/") ++ "</a>"))
                 (with_head 301 [("Location", url req ++ "/");
                                 ("Content-Type", "text/html")]
                            fresh_response)))
  /\ (forall stat, found = Some stat ->
      Fs.isDirectory stat = true -> slash = true ->
      (Fs.existsSync (fs host) indexPagePath = true ->
       out = respond host this indexPagePath req fresh_response)
      /\ (Fs.existsSync (fs host) indexPagePath = false ->
          forall files content,
            Fs.readdir (fs host) pathName = inr files ->
            forEach_file host pathName (url_pathname host (url req)) files
              ("<h1>Index of " ++ url_pathname host (url req) ++ "</h1>")
              fresh_response
            = Returned content fresh_response ->
            out = Returned tt
                    (completed (Text content)
                       (with_head 200 [("Content-Type", "text/html")]
                                  fresh_response))))
  /\ (forall stat, found = Some stat -> Fs.isDirectory stat = false ->
      out = respond host this pathName req fresh_response)
  /\ (found = None
      \/ (exists stat, found = Some stat
                       /\ Fs.isDirectory stat = true /\ slash = false)
      \/ (exists stat, found = Some stat
                       /\ Fs.isDirectory stat = true /\ slash = true)
      \/ (exists stat, found = Some stat /\ Fs.isDirectory stat = false)).
Proof.
  intros out found slash indexPagePath. subst out. unfold routeHandler.
  fold found. fold slash. repeat apply conj.
  - intros ->. reflexivity.
  - intros stat -> Hdir ->. rewrite Hdir. reflexivity.
  - intros stat -> Hdir ->. rewrite Hdir. cbn [andb].
    unfold respondDirectory. fold indexPagePath. split.
    + intros ->. reflexivity.
    + intros -> files content -> Hlist.
      unfold readdir_callback. rewrite bind_ret.
      unfold bind at 1. rewrite Hlist. reflexivity.
  - intros stat -> Hfile. rewrite Hfile, andb_false_r. reflexivity.
  - destruct found as [stat|]; [|now left].
    destruct (Fs.isDirectory stat) eqn:Hdir, slash eqn:Hslash; eauto 8.
Qed.

Lemma routeHandler_classification_witness :
  routeHandler Demo.host Demo.this "/srv/www/docs" (Demo.GET "/docs" [])
               fresh_response
  = Returned tt
      (completed (Text "Redirecting to <a href='/docs/'>/docs/</a>")
         (with_head 301 [("Location", "/docs/");
                         ("Content-Type", "text/html")] fresh_response)).
Proof.
  exact (proj1 (proj2 (routeHandler_classification
                         Demo.host Demo.this "/srv/www/docs"
                         (Demo.GET "/docs" [])))
               Demo.directory eq_refl eq_refl eq_refl).
Defined.

(** *** C7: negotiation of the content encoding *)

(** C7.  On the value of [Accept-Encoding]: with the header absent, or
    with neither a [gzip] nor a [deflate] token in it, the stream comes
    back as it was given and the response is untouched; with a [gzip]
    token, whatever else the header holds, [Content-Encoding: gzip] is set
    and the stream is piped through gzip; with a [deflate] token and no
    [gzip] token, [Content-Encoding: deflate] is set and the stream is
    piped through deflate. *)
Theorem compressHandler_negotiation
        (readStream : stream) (req : Request) (res : ServerResponse) :
  headersSent res = false ->
  let acceptEncoding := headers req !! "accept-encoding" in
  let out := compressHandler readStream req res in
  ((acceptEncoding = None
    \/ exists v, acceptEncoding = Some v
                 /\ Regex.gzip v = false /\ Regex.deflate v = false) ->
   out = Returned (Some readStream) res)
  /\ (forall v, acceptEncoding = Some v -> Regex.gzip v = true ->
      out = Returned (Some (Gzip readStream))
                     (with_header "Content-Encoding" "gzip" res))
  /\ (forall v, acceptEncoding = Some v ->
      Regex.gzip v = false -> Regex.deflate v = true ->
      out = Returned (Some (Deflate readStream))
                     (with_header "Content-Encoding" "deflate" res)).
Proof.
  intros Hsent acceptEncoding out. subst out. unfold compressHandler.
  fold acceptEncoding. repeat split.
  - intros [-> | (v & -> & Hg & Hd)]; [reflexivity|].
    cbn [header_match]. rewrite gzip_or_deflate_split, Hg, Hd.
    now rewrite orb_true_r.
  - intros v -> Hg. cbn [header_match].
    rewrite gzip_or_deflate_split, Hg, (token_truthy Regex.gzip v eq_refl Hg).
    cbn. unfold bind, setHeader. now rewrite Hsent.
  - intros v -> Hg Hd. cbn [header_match].
    rewrite gzip_or_deflate_split, Hg, Hd,
      (token_truthy Regex.deflate v eq_refl Hd).
    cbn. unfold bind, setHeader. now rewrite Hsent.
Qed.

Lemma compressHandler_negotiation_witness :
  compressHandler (FileStream "/srv/www/notes.txt" None)
                  (Demo.GET "/notes.txt" [("accept-encoding", "gzip, deflate")])
                  fresh_response
  = Returned (Some (Gzip (FileStream "/srv/www/notes.txt" None)))
             (with_header "Content-Encoding" "gzip" fresh_response).
Proof.
  exact (proj1 (proj2 (compressHandler_negotiation
                         (FileStream "/srv/www/notes.txt" None)
                         (Demo.GET "/notes.txt"
                                   [("accept-encoding", "gzip, deflate")])
                         fresh_response eq_refl))
               "gzip, deflate" eq_refl eq_refl).
Defined.

(** *** C8: which files are compressed *)

(** C8 fails on the code.  [.png] is not among the configured
    extensions, yet [logo.png] asked with [Accept-Encoding: gzip] goes
    through the compression step: the response carries
    [Content-Encoding: gzip] and its body is the gzip stream. *)
Theorem unlisted_extension_compressed :
  let out := serve Demo.host
                   (Demo.GET "/logo.png" [("accept-encoding", "gzip")]) in
  Config.zipMatch (config Demo.host) (Path.extname "/srv/www/logo.png") = false
  /\ status_of out = 200
  /\ ended_of out = [Piped (Gzip (FileStream "/srv/www/logo.png" None))]
  /\ exists res, out = Returned tt res
                 /\ _headers res !! "content-encoding" = Some "gzip".
Proof.
  cbv zeta. repeat apply conj; [reflexivity | reflexivity | reflexivity |].
  eexists. split; vm_compute; reflexivity.
Qed.

(** *** C9: the resolved path and the root *)

(** C9 fails on the code.  A request target in absolute form is not
    rooted, [path.normalize] keeps the [..] that climb out of it, and
    [path.join] applies them to the root: for the root [/srv/www] the
    target [http://h/../../../etc/passwd] resolves to [/srv/etc/passwd],
    which does not start with the root, and the file is streamed. *)
Theorem absolute_form_target_escapes_root :
  let target := "http://h/../../../etc/passwd" in
  let pathName := Path.join (root Demo.this) (Path.normalize target) in
  let out := serve Demo.host (Demo.GET target []) in
  root Demo.this = "/srv/www"
  /\ Path.normalize target = "../etc/passwd"
  /\ pathName = "/srv/etc/passwd"
  /\ String.prefix (root Demo.this) pathName = false
  /\ status_of out = 200
  /\ ended_of out = [Piped (FileStream "/srv/etc/passwd" None)].
Proof. cbv zeta. repeat apply conj; reflexivity. Qed.

(** A request target that starts with a slash resolves inside the root,
    for a root given by plain segments: [path.normalize] clamps such a
    target at its own root before [path.join] puts it under the server
    root. *)
Theorem rooted_target_stays_inside (rsegs : list string) (target : string) :
  rsegs <> [] -> Forall (fun seg => plain seg = true) rsegs ->
  Path.isAbsolute target = true ->
  inside (rooted rsegs) (Path.join (rooted rsegs) (Path.normalize target)).
Proof.
  intros Hne Hplain Habs.
  destruct (normalize_absolute_split target Habs) as (Hn & segs & Hsplit & Hsegs).
  destruct (fold_step_clean segs Hsegs) as (pushed & Hpushed & Hfold).
  unfold Path.join.
  change (String.eqb (rooted rsegs) "") with false. cbv iota.
  apply String.eqb_neq in Hn. rewrite Hn.
  set (n := Path.normalize target) in *.
  unfold Path.normalize.
  change (String.eqb (rooted rsegs ++ "/" ++ n) "") with false.
  change (Path.isAbsolute (rooted rsegs ++ "/" ++ n)) with true.
  cbv iota. cbn [negb]. unfold Path.normalizeString.
  rewrite split_app_slash, Hsplit.
  assert (Hroot : Path.split (rooted rsegs) = "" :: rsegs).
  { unfold rooted.
    change ("/" ++ String.concat "/" rsegs)
      with (String Path.slash (String.concat "/" rsegs)).
    cbn [Path.split]. rewrite Ascii.eqb_refl.
    now rewrite split_concat by assumption. }
  rewrite Hroot, fold_left_app. cbn [fold_left]. rewrite !step_empty.
  rewrite (fold_step_plain rsegs) by assumption. rewrite app_nil_r, Hfold.
  rewrite rev_app_distr, !rev_involutive.
  rewrite concat_app_nonempty by assumption.
  destruct rsegs as [|r rsegs']; [congruence|].
  inversion Hplain as [|? ? Hr _]; subst.
  destruct (concat_plain_nonempty r rsegs' Hr) as (c & tail & Hhead).
  set (suffix := match pushed with
                 | [] => ""
                 | _ => "/" ++ String.concat "/" pushed
                 end).
  assert (Hbody : String.eqb (String.concat "/" (r :: rsegs') ++ suffix) ""
                  = false) by (rewrite Hhead; reflexivity).
  rewrite Hbody. unfold inside, rooted.
  destruct (Path.trailingSeparator _).
  - right. exists (match pushed with
                   | [] => ""
                   | _ => String.concat "/" pushed ++ "/"
                   end).
    subst suffix. destruct pushed; rewrite !append_assoc;
      rewrite ?append_empty, ?append_empty_r; reflexivity.
  - subst suffix. destruct pushed as [|p pushed'].
    + left. now rewrite append_empty_r.
    + right. exists (String.concat "/" (p :: pushed')).
      now rewrite !append_assoc.
Qed.

Lemma rooted_target_stays_inside_witness :
  inside "/srv/www" (Path.join "/srv/www" (Path.normalize "/../../etc/passwd")).
Proof.
  exact (rooted_target_stays_inside ["srv"; "www"] "/../../etc/passwd"
           ltac:(discriminate) ltac:(repeat constructor) eq_refl).
Defined.

(** *** C10: one response for each request *)

(** C10 fails on the code.  [/locked/] is a directory without an index
    page whose [readdir] fails: the request ends in an uncaught
    [ReferenceError], the status was never set to 500 and no response was
    completed. *)
Theorem readdir_failure_unanswered :
  let out := serve Demo.host (Demo.GET "/locked/" []) in
  Fs.stat Demo.disk "/srv/www/locked/" = Some Demo.directory
  /\ Fs.readdir Demo.disk "/srv/www/locked/"
     = inl "EACCES: permission denied, scandir '/srv/www/locked/'"
  /\ out = Thrown (ReferenceError "respondError is not defined")
                  fresh_response
  /\ length (ended_of out) = 0%nat
  /\ status_of out <> 500.
Proof.
  cbv zeta. repeat apply conj; try reflexivity. discriminate.
Qed.

(** ** Further properties of the code *)

(** *** Staged headers *)

Ltac lower_names :=
  repeat match goal with
         | |- context [JS.toLowerCase ?s] =>
             let v := eval vm_compute in (JS.toLowerCase s) in
             change (JS.toLowerCase s) with v
         end.

Ltac other_name := lower_names; congruence.

Lemma lookup_with_header_eq (name value : string) (res : ServerResponse) :
  _headers (with_header name value res) !! JS.toLowerCase name = Some value.
Proof. apply lookup_insert_eq. Qed.

Lemma lookup_with_header_ne (name value k : string) (res : ServerResponse) :
  JS.toLowerCase name <> k ->
  _headers (with_header name value res) !! k = _headers res !! k.
Proof. intros H. cbn. unfold store. now rewrite lookup_insert_ne. Qed.

Lemma lookup_stage_ne (flag : bool) (name value k : string)
      (res : ServerResponse) :
  JS.toLowerCase name <> k ->
  _headers (stage flag name value res) !! k = _headers res !! k.
Proof.
  intros H. destruct flag; [now apply lookup_with_header_ne | reflexivity].
Qed.

Lemma lookup_stage_eq (flag : bool) (name value : string)
      (res : ServerResponse) :
  _headers (stage flag name value res) !! JS.toLowerCase name
  = if flag then Some value else _headers res !! JS.toLowerCase name.
Proof. destruct flag; [apply lookup_with_header_eq | reflexivity]. Qed.

(** *** The compression step and the end of [responseFile] *)

Lemma compressHandler_frame
      (readStream : stream) (req : Request) (res : ServerResponse) :
  headersSent res = false ->
  exists s res',
    compressHandler readStream req res = Returned (Some s) res'
    /\ statusCode res' = statusCode res
    /\ ended res' = ended res
    /\ headersSent res' = false
    /\ forall k, k <> "content-encoding" ->
                 _headers res' !! k = _headers res !! k.
Proof.
  intros Hsent. unfold compressHandler.
  destruct (headers req !! "accept-encoding") as [v|]; cbn [header_match].
  2: { exists readStream, res. cbn. auto. }
  rewrite gzip_or_deflate_split.
  destruct (JS.truthy (Some v)); cbn [negb orb].
  2: { exists readStream, res. auto. }
  destruct (Regex.gzip v) eqn:Hg; cbn [negb orb].
  { unfold bind. rewrite setHeader_unsent by exact Hsent.
    eexists _, _. split; [reflexivity|]. repeat split; auto.
    intros k Hk. apply lookup_with_header_ne. other_name. }
  destruct (Regex.deflate v) eqn:Hd; cbn [negb orb].
  { unfold bind. rewrite setHeader_unsent by exact Hsent.
    eexists _, _. split; [reflexivity|]. repeat split; auto.
    intros k Hk. apply lookup_with_header_ne. other_name. }
  exists readStream, res. auto.
Qed.

Lemma send_frame (this : StaticServer) (pathName : string) (req : Request)
      (readStream : stream) (res : ServerResponse) :
  headersSent res = false ->
  exists s res',
    send this pathName req readStream res = Returned tt res'
    /\ statusCode res' = statusCode res
    /\ ended res' = (ended res ++ [Piped s])%list
    /\ headersSent res' = true
    /\ forall k, k <> "content-encoding" ->
                 _headers res' !! k = _headers res !! k.
Proof.
  intros Hsent. unfold send, bind.
  rewrite shouldCompress_always.
  destruct (compressHandler_frame readStream req res Hsent)
    as (s & res' & -> & Hstatus & Hended & _ & Hframe).
  exists s, (completed (Piped s) res'). cbn. rewrite Hended. auto.
Qed.

(** The whole of [responseFile] on a response that was not started. *)
Lemma responseFile_discipline (host : Host) (this : StaticServer)
      (stat : Fs.Stats) (pathName : string) (req : Request)
      (res : ServerResponse) :
  headersSent res = false -> statusCode res = 200 -> ended res = [] ->
  let o := responseFile host this stat pathName req res in
  answered_once_or_never o
  /\ headers_of o !! "content-type" = Some (mime_lookup host pathName)
  /\ headers_of o !! "accept-ranges" = Some "bytes".
Proof.
  intros Hsent Hstatus Hended o.
  assert (Ho : o = responseFile host this stat pathName req res)
    by reflexivity.
  clearbody o. unfold responseFile in Ho.
  unfold bind at 1 in Ho. rewrite setHeader_unsent in Ho by exact Hsent.
  unfold bind at 1 in Ho. rewrite setHeader_unsent in Ho by exact Hsent.
  set (res2 := with_header "Accept-Ranges" _ _) in Ho.
  assert (Hsent2 : headersSent res2 = false) by exact Hsent.
  assert (Hstatus2 : statusCode res2 = 200) by exact Hstatus.
  assert (Hended2 : ended res2 = []) by exact Hended.
  assert (Htype : _headers res2 !! "content-type"
                  = Some (mime_lookup host pathName)).
  { subst res2. rewrite lookup_with_header_ne by other_name.
    apply (lookup_with_header_eq "Content-Type"). }
  assert (Hranges : _headers res2 !! "accept-ranges" = Some "bytes")
    by apply (lookup_with_header_eq "Accept-Ranges").
  clearbody res2.
  destruct (JS.truthy (headers req !! "range")).
  - unfold bind at 1 in Ho.
    destruct (getRange (default "" (headers req !! "range")) (Fs.size stat))
      as [range|e] eqn:Hrange.
    + destruct (rangeHandler_cases pathName _ _ range res2 Hsent2 Hrange)
        as [[_ Hout] | [_ Hout]]; rewrite Hout in Ho.
      * subst o. cbn. rewrite Hended2.
        rewrite !lookup_insert_ne by other_name.
        repeat split; auto; cbn; tauto.
      * destruct (send_frame this pathName req
                    (FileStream pathName
                       (Some (Range.start range, Range.end_ range)))
                    (partial range (Fs.size stat) res2) Hsent2)
          as (s & res' & Hsend & Hst & Hen & Hsn & Hframe).
        rewrite Hsend in Ho. subst o. cbn.
        rewrite Hst, Hen, Hsn, !Hframe by congruence. cbn.
        rewrite Hended2.
        unfold store. rewrite !lookup_insert_ne by other_name.
        repeat split; auto; cbn; tauto.
    + unfold rangeHandler in Ho. rewrite Hrange in Ho. subst o. cbn.
      repeat split; auto.
  - destruct (send_frame this pathName req (createReadStream pathName None)
                         res2 Hsent2)
      as (s & res' & Hsend & Hst & Hen & Hsn & Hframe).
    rewrite Hsend in Ho. subst o. cbn.
    rewrite Hst, Hen, Hsn, !Hframe, Hstatus2, Hended2 by congruence.
    repeat split; auto; cbn; tauto.
Qed.

Lemma respond_discipline (host : Host) (this : StaticServer)
      (pathName : string) (req : Request) :
  answered_once_or_never (respond host this pathName req fresh_response).
Proof.
  destruct (Fs.stat (fs host) pathName) as [stat|] eqn:Hstat.
  - rewrite (respond_found host this pathName req stat Hstat).
    destruct (freshened_invariant host this stat fresh_response)
      as (Hsent & Hstatus & Hended).
    destruct (isFresh _ _).
    + cbn. rewrite Hended. cbn. repeat split; auto; tauto.
    + apply (responseFile_discipline host this stat pathName req _
               Hsent Hstatus Hended).
  - unfold respond. rewrite Hstat. cbn. auto.
Qed.

(** X1.  Whatever the host and the request, the listener leaves one of
    two states behind.  Either the handler returned: then the response
    was completed exactly once, its head is out, and its status is one of
    200, 206, 301, 304, 404 and 416, never 500.  Or an exception escaped:
    then no head and no body were ever written. *)
Theorem serve_answers_once_or_never (host : Host) (req : Request) :
  answered_once_or_never (serve host req).
Proof.
  unfold serve, start, routeHandler.
  set (this := constructor host).
  set (pathName := Path.join (root this) (Path.normalize (url req))).
  destruct (Fs.stat (fs host) pathName) as [stat|];
    [|cbn; repeat split; auto; tauto].
  destruct (hasTrailingSlash _ && Fs.isDirectory stat).
  - unfold respondDirectory.
    destruct (Fs.existsSync (fs host) _); [apply respond_discipline|].
    destruct (Fs.readdir (fs host) pathName) as [err|files];
      [cbn; auto|].
    unfold readdir_callback. rewrite bind_ret. unfold bind at 1.
    destruct (forEach_file_pure host pathName
                (url_pathname host (url req)) files
                ("<h1>Index of " ++ url_pathname host (url req) ++ "</h1>")
                fresh_response) as [[content ->] | [e ->]];
      cbn; repeat split; auto; tauto.
  - destruct (Fs.isDirectory stat);
      [cbn; repeat split; auto; tauto|].
    apply respond_discipline.
Qed.

(** X2.  [responseFile] stages [Content-Type], with the value of the MIME
    lookup, and [Accept-Ranges: bytes] on every path it takes: they are on
    the response of a 200, of a 206 and of a 416, and also on the response
    it leaves behind when the range parser throws. *)
Theorem responseFile_always_typed (host : Host) (this : StaticServer)
        (stat : Fs.Stats) (pathName : string) (req : Request) :
  let o := responseFile host this stat pathName req
             (freshened host this stat fresh_response) in
  headers_of o !! "content-type" = Some (mime_lookup host pathName)
  /\ headers_of o !! "accept-ranges" = Some "bytes".
Proof.
  destruct (freshened_invariant host this stat fresh_response)
    as (Hsent & Hstatus & Hended).
  apply (responseFile_discipline host this stat pathName req _
           Hsent Hstatus Hended).
Qed.

(** *** Two-sided ranges and what follows them *)

Lemma match_range_two_sided (a b rest : string) :
  JS.all_digits a = true -> JS.all_digits b = true ->
  (forall c rest', rest = String c rest' -> JS.is_digit c = false) ->
  Regex.match_range ("bytes=" ++ a ++ "-" ++ b ++ rest) = Some (a, b).
Proof.
  intros Ha Hb Hrest. apply match_range_head. unfold Regex.range_at.
  change ("bytes=" ++ a ++ "-" ++ b ++ rest)
    with (String "b" (String "y" (String "t" (String "e" (String "s"
            (String "=" (a ++ String "-" (b ++ rest)))))))).
  cbn [Regex.strip_prefix]. rewrite !Ascii.eqb_refl.
  rewrite (take_digits_all a (String "-" (b ++ rest)) Ha)
    by (intros c rest' [= <- _]; reflexivity).
  now rewrite (take_digits_all b rest Hb Hrest).
Qed.

Lemma getRange_two_sided (a b rest : string) (totalSize : Z) :
  JS.all_digits a = true -> a <> "" ->
  JS.all_digits b = true -> b <> "" ->
  (forall c rest', rest = String c rest' -> JS.is_digit c = false) ->
  getRange ("bytes=" ++ a ++ "-" ++ b ++ rest) totalSize
  = Ok {| Range.start := JS.Num (JS.digits_value 0 a);
          Range.end_ := JS.Num (JS.digits_value 0 b) |}.
Proof.
  intros Ha Hane Hb Hbne Hrest. unfold getRange.
  rewrite (match_range_two_sided a b rest Ha Hb Hrest).
  now rewrite (parseInt_digits a Ha Hane), (parseInt_digits b Hb Hbne).
Qed.

Lemma getRange_two_numerals (a b totalSize : Z) :
  0 <= a -> 0 <= b ->
  getRange ("bytes=" ++ JS.decimal a ++ "-" ++ JS.decimal b) totalSize
  = Ok {| Range.start := JS.Num a; Range.end_ := JS.Num b |}.
Proof.
  intros Ha Hb.
  destruct (decimal_nonneg a Ha) as (Hda & Hnea & Hva).
  destruct (decimal_nonneg b Hb) as (Hdb & Hneb & Hvb).
  pose proof (getRange_two_sided (JS.decimal a) (JS.decimal b) "" totalSize
                Hda Hnea Hdb Hneb ltac:(discriminate)) as H.
  rewrite append_empty_r, Hva, Hvb in H. exact H.
Qed.

(** X3.  [getRange] throws exactly when the pattern finds no match in
    the header; when it returns, the two bounds are either both numbers
    or both [NaN], never one of each. *)
Theorem getRange_shape (rangeText : string) (totalSize : Z) :
  match getRange rangeText totalSize with
  | Ok range =>
      Regex.match_range rangeText <> None
      /\ ((Range.start range = JS.NaN /\ Range.end_ range = JS.NaN)
          \/ exists a b, Range.start range = JS.Num a
                         /\ Range.end_ range = JS.Num b)
  | Err e =>
      Regex.match_range rangeText = None
      /\ e = TypeError "Cannot read property '1' of null"
  end.
Proof.
  unfold getRange.
  destruct (Regex.match_range rangeText) as [[g1 g2]|]; [|now split].
  destruct (JS.parseInt g1), (JS.parseInt g2); cbn;
    (split; [discriminate | eauto]).
Qed.

(** X4.  The pattern of [getRange] is not anchored at the end: after
    [bytes=a-b] any text that does not go on with a digit is ignored.  A
    request for several ranges, [bytes=a-b,c-d], is read as the request
    for its first range alone, whatever the size; for numerals up to
    [JS.MAX_SAFE_INTEGER] the range read is [a] to [b]. *)
Theorem getRange_reads_first_range (a b rest : string) (totalSize : Z) :
  JS.all_digits a = true -> a <> "" ->
  JS.all_digits b = true -> b <> "" ->
  (forall c rest', rest = String c rest' -> JS.is_digit c = false) ->
  getRange ("bytes=" ++ a ++ "-" ++ b ++ rest) totalSize
  = getRange ("bytes=" ++ a ++ "-" ++ b) totalSize
  /\ (JS.digits_value 0 a <= JS.MAX_SAFE_INTEGER ->
      JS.digits_value 0 b <= JS.MAX_SAFE_INTEGER ->
      getRange ("bytes=" ++ a ++ "-" ++ b ++ rest) totalSize
      = Ok {| Range.start := JS.Num (JS.digits_value 0 a);
              Range.end_ := JS.Num (JS.digits_value 0 b) |}).
Proof.
  intros Ha Hane Hb Hbne Hrest.
  pose proof (getRange_two_sided a b rest totalSize Ha Hane Hb Hbne Hrest)
    as H1.
  pose proof (getRange_two_sided a b "" totalSize Ha Hane Hb Hbne
                ltac:(discriminate)) as H2.
  rewrite append_empty_r in H2.
  split; [now rewrite H1, H2 | intros _ _; exact H1].
Qed.

Lemma getRange_reads_first_range_witness :
  getRange "bytes=0-4,10-14" 100 = getRange "bytes=0-4" 100
  /\ getRange "bytes=0-4,10-14" 100
     = Ok {| Range.start := JS.Num 0; Range.end_ := JS.Num 4 |}.
Proof.
  assert (Hrest : forall c rest',
             ",10-14" = String c rest' -> JS.is_digit c = false)
    by (intros c rest' [= <- _]; reflexivity).
  assert (Ha : JS.digits_value 0 "0" <= JS.MAX_SAFE_INTEGER)
    by (vm_compute; discriminate).
  assert (Hb : JS.digits_value 0 "4" <= JS.MAX_SAFE_INTEGER)
    by (vm_compute; discriminate).
  assert (Hne0 : "0" <> "") by discriminate.
  assert (Hne4 : "4" <> "") by discriminate.
  exact (conj (proj1 (getRange_reads_first_range "0" "4" ",10-14" 100
                        eq_refl Hne0 eq_refl Hne4 Hrest))
              (proj2 (getRange_reads_first_range "0" "4" ",10-14" 100
                        eq_refl Hne0 eq_refl Hne4 Hrest) Ha Hb)).
Defined.

(** *** [responseFile] on range requests *)

Lemma truthy_bytes (rest : string) :
  JS.truthy (Some ("bytes=" ++ rest)) = true.
Proof. reflexivity. Qed.

Lemma compressHandler_absent
      (readStream : stream) (req : Request) (res : ServerResponse) :
  headers req !! "accept-encoding" = None ->
  compressHandler readStream req res = Returned (Some readStream) res.
Proof. intros H. unfold compressHandler. now rewrite H. Qed.

Lemma compressHandler_gzip_token
      (readStream : stream) (req : Request) (res : ServerResponse)
      (v : string) :
  headersSent res = false ->
  headers req !! "accept-encoding" = Some v -> Regex.gzip v = true ->
  compressHandler readStream req res
  = Returned (Some (Gzip readStream))
             (with_header "Content-Encoding" "gzip" res).
Proof.
  intros Hsent Hv Hg. unfold compressHandler. rewrite Hv.
  cbn [header_match].
  rewrite gzip_or_deflate_split, Hg, (token_truthy Regex.gzip v eq_refl Hg).
  cbn. unfold bind. now rewrite setHeader_unsent.
Qed.

(** [responseFile] up to the choice of the stream. *)
Lemma responseFile_ranged (host : Host) (this : StaticServer)
      (stat : Fs.Stats) (pathName : string) (req : Request)
      (rangeText : string) (res : ServerResponse) :
  headersSent res = false ->
  headers req !! "range" = Some rangeText ->
  JS.truthy (Some rangeText) = true ->
  responseFile host this stat pathName req res
  = (readStream <- rangeHandler pathName rangeText (Fs.size stat) ;;
     match readStream with
     | None => ret tt
     | Some readStream => send this pathName req readStream
     end)
      (with_header "Accept-Ranges" "bytes"
         (with_header "Content-Type" (mime_lookup host pathName) res)).
Proof.
  intros Hsent Hrange Htruthy. unfold responseFile.
  unfold bind at 1. rewrite setHeader_unsent by exact Hsent.
  unfold bind at 1. rewrite setHeader_unsent by exact Hsent.
  rewrite Hrange, Htruthy. reflexivity.
Qed.

(** X5.  A request for the range [bytes=a-b] with [0 <= a <= b < size]
    and no [Accept-Encoding] is answered 206 with
    [Content-Range: bytes a-b/size], and the body is the file stream over
    the offsets [a] to [b], which holds [b - a + 1] bytes. *)
Theorem literal_range_served (host : Host) (this : StaticServer)
        (stat : Fs.Stats) (pathName : string) (req : Request) (a b : Z)
        (res : ServerResponse) :
  headersSent res = false ->
  headers req !! "range"
  = Some ("bytes=" ++ JS.decimal a ++ "-" ++ JS.decimal b) ->
  headers req !! "accept-encoding" = None ->
  0 <= a -> a <= b -> b < Fs.size stat ->
  responseFile host this stat pathName req res
  = Returned tt
      (completed (Piped (FileStream pathName (Some (JS.Num a, JS.Num b))))
         (with_header "Content-Range"
            ("bytes " ++ JS.decimal a ++ "-" ++ JS.decimal b ++ "/"
             ++ JS.decimal (Fs.size stat))
            (with_status 206
               (with_header "Accept-Ranges" "bytes"
                  (with_header "Content-Type" (mime_lookup host pathName)
                     res)))))
  /\ forall content : list Byte.byte,
      Z.of_nat (length content) = Fs.size stat ->
      Z.of_nat (length (span content a b)) = b - a + 1.
Proof.
  intros Hsent Hrange Hae Ha Hab Hb. split.
  - rewrite (responseFile_ranged host this stat pathName req _ res
               Hsent Hrange (truthy_bytes _)).
    set (res2 := with_header "Accept-Ranges" _ _).
    unfold bind at 1.
    destruct (rangeHandler_cases pathName _ (Fs.size stat) _ res2 Hsent
                (getRange_two_numerals a b (Fs.size stat) Ha ltac:(lia)))
      as [[Hbad _] | [_ ->]].
    + unfold out_of_bounds in Hbad. cbn in Hbad. lia.
    + unfold send, bind. rewrite shouldCompress_always.
      now rewrite compressHandler_absent.
  - intros content Hlen. apply span_length; lia.
Qed.

Lemma literal_range_served_witness :
  responseFile Demo.host Demo.this (Demo.file 10) "/srv/www/notes.txt"
               (Demo.GET "/notes.txt" [("range", "bytes=2-5")])
               fresh_response
  = Returned tt
      (completed (Piped (FileStream "/srv/www/notes.txt"
                                    (Some (JS.Num 2, JS.Num 5))))
         (with_header "Content-Range" "bytes 2-5/10"
            (with_status 206
               (with_header "Accept-Ranges" "bytes"
                  (with_header "Content-Type" "text/plain"
                     fresh_response))))).
Proof.
  exact (proj1 (literal_range_served
                  Demo.host Demo.this (Demo.file 10) "/srv/www/notes.txt"
                  (Demo.GET "/notes.txt" [("range", "bytes=2-5")]) 2 5
                  fresh_response eq_refl eq_refl eq_refl
                  ltac:(lia) ltac:(lia) eq_refl)).
Defined.

(** X6.  When the parsed range fails the validation, [responseFile] stops
    at the 416: the response is completed without a body, no stream is
    opened and the compression step is never reached, so that no
    [Content-Encoding] is staged whatever [Accept-Encoding] asks for. *)
Theorem unsatisfiable_range_ends_there (host : Host) (this : StaticServer)
        (stat : Fs.Stats) (pathName : string) (req : Request)
        (rangeText : string) (range : Range.t) (res : ServerResponse) :
  headersSent res = false ->
  headers req !! "range" = Some rangeText ->
  JS.truthy (Some rangeText) = true ->
  getRange rangeText (Fs.size stat) = Ok range ->
  out_of_bounds range (Fs.size stat) ->
  let out := responseFile host this stat pathName req res in
  out = Returned tt
          (unsatisfiable (Fs.size stat)
             (with_header "Accept-Ranges" "bytes"
                (with_header "Content-Type" (mime_lookup host pathName) res)))
  /\ headers_of out !! "content-encoding" = _headers res !! "content-encoding".
Proof.
  intros Hsent Hrange Htruthy Hparsed Hbad out.
  assert (Hout : out = Returned tt
                         (unsatisfiable (Fs.size stat)
                            (with_header "Accept-Ranges" "bytes"
                               (with_header "Content-Type"
                                  (mime_lookup host pathName) res)))).
  { subst out.
    rewrite (responseFile_ranged host this stat pathName req rangeText res
               Hsent Hrange Htruthy).
    set (res2 := with_header "Accept-Ranges" _ _).
    unfold bind at 1.
    destruct (rangeHandler_cases pathName rangeText (Fs.size stat) range
                res2 Hsent Hparsed) as [[_ ->] | [Hok _]];
      [reflexivity | contradiction]. }
  split; [exact Hout|]. rewrite Hout.
  unfold headers_of, unsatisfiable, completed. cbn [_headers].
  rewrite lookup_with_header_ne by other_name.
  unfold with_status. cbn [_headers].
  now rewrite !lookup_with_header_ne by other_name.
Qed.

Lemma unsatisfiable_range_ends_there_witness :
  responseFile Demo.host Demo.this (Demo.file 10) "/srv/www/notes.txt"
               (Demo.GET "/notes.txt" [("range", "bytes=7-3");
                                       ("accept-encoding", "gzip")])
               fresh_response
  = Returned tt
      (unsatisfiable 10
         (with_header "Accept-Ranges" "bytes"
            (with_header "Content-Type" "text/plain" fresh_response))).
Proof.
  exact (proj1 (unsatisfiable_range_ends_there
                  Demo.host Demo.this (Demo.file 10) "/srv/www/notes.txt"
                  (Demo.GET "/notes.txt" [("range", "bytes=7-3");
                                          ("accept-encoding", "gzip")])
                  "bytes=7-3"
                  {| Range.start := JS.Num 7; Range.end_ := JS.Num 3 |}
                  fresh_response eq_refl eq_refl eq_refl eq_refl
                  (or_intror (or_intror eq_refl)))).
Defined.



(** *** The entity tag *)

Lemma split_at_first (c : ascii) (a a' b b' : string) :
  lacks c a = true -> lacks c a' = true ->
  a ++ String c b = a' ++ String c b' -> a = a' /\ b = b'.
Proof.
  revert a'. induction a as [|x a IH]; intros [|x' a'] Ha Ha' Heq;
    rewrite ?append_cons, ?append_empty in Heq; cbn in Ha, Ha'.
  - injection Heq as ->. now split.
  - injection Heq as <- _. rewrite Ascii.eqb_refl in Ha'. discriminate.
  - injection Heq as -> _. rewrite Ascii.eqb_refl in Ha. discriminate.
  - injection Heq as -> Heq.
    apply andb_true_iff in Ha as [_ Ha]. apply andb_true_iff in Ha' as [_ Ha'].
    destruct (IH a' Ha Ha' Heq) as [-> ->]. now split.
Qed.

Lemma hex_uint_lacks (c : ascii) (d : Hexadecimal.uint) :
  c = "-"%char \/ c = ascii_of_nat 34 ->
  lacks c (HexadecimalString.NilEmpty.string_of_uint d) = true.
Proof.
  intros [-> | ->]; induction d; cbn; auto.
Qed.

Lemma toString16_lacks_quote (z : Z) :
  lacks (ascii_of_nat 34) (JS.toString16 z) = true.
Proof.
  unfold JS.toString16.
  destruct (Z.to_hex_int z) as [d|d]; cbn;
    unfold HexadecimalString.NilZero.string_of_uint;
    destruct d; try reflexivity; apply hex_uint_lacks; auto.
Qed.

Lemma toString16_lacks_dash (z : Z) :
  0 <= z -> lacks "-"%char (JS.toString16 z) = true.
Proof.
  intros Hz. unfold JS.toString16.
  destruct z as [|p|p]; [reflexivity | | lia]. cbn.
  unfold HexadecimalString.NilZero.string_of_uint.
  destruct (Pos.to_hex_uint p); try reflexivity; apply hex_uint_lacks; auto.
Qed.

Lemma toString16_inj (z z' : Z) :
  JS.toString16 z = JS.toString16 z' -> z = z'.
Proof.
  unfold JS.toString16. intros H.
  apply (f_equal HexadecimalString.NilZero.int_of_string) in H.
  assert (Hnil : forall x, Z.to_hex_int x <> Hexadecimal.Pos Hexadecimal.Nil
                           /\ Z.to_hex_int x <> Hexadecimal.Neg Hexadecimal.Nil).
  { intros [|p|p]; cbn; split; try discriminate;
      intros [= Hp]; now apply HexadecimalPos.Unsigned.to_uint_nonnil in Hp. }
  rewrite !HexadecimalString.NilZero.isi in H by apply Hnil.
  injection H as H. now apply HexadecimalZ.to_int_inj.
Qed.

Lemma generateETag_inj (stat stat' : Fs.Stats) :
  0 <= Fs.size stat -> 0 <= Fs.size stat' ->
  generateETag stat = generateETag stat' ->
  Fs.size stat = Fs.size stat' /\ Fs.mtime stat = Fs.mtime stat'.
Proof.
  intros Hs Hs' H. unfold generateETag, dquote in H.
  rewrite !append_cons, !append_empty in H. injection H as H.
  apply split_at_first in H as [Hsize H];
    [|now apply toString16_lacks_dash..].
  apply split_at_first in H as [Hmtime _];
    [|apply toString16_lacks_quote..].
  split; now apply toString16_inj.
Qed.

Lemma generateETag_truthy (stat : Fs.Stats) :
  JS.truthy (Some (generateETag stat)) = true.
Proof. reflexivity. Qed.

(** X8.  For files of non-negative size the entity tag determines the
    size and the modification time it was made from: two stats get the
    same tag only if they agree on both.  A file whose size or
    modification time changed gets another tag. *)
Theorem generateETag_injective (stat stat' : Fs.Stats) :
  0 <= Fs.size stat -> 0 <= Fs.size stat' ->
  generateETag stat = generateETag stat'
  <-> Fs.size stat = Fs.size stat' /\ Fs.mtime stat = Fs.mtime stat'.
Proof.
  intros Hs Hs'. split; [now apply generateETag_inj|].
  intros [Hsize Hmtime]. unfold generateETag. now rewrite Hsize, Hmtime.
Qed.

Lemma generateETag_injective_witness :
  generateETag (Demo.file 10) <> generateETag (Demo.file 11).
Proof.
  intros H.
  destruct (proj1 (generateETag_injective (Demo.file 10) (Demo.file 11)
                     ltac:(discriminate) ltac:(discriminate)) H)
    as [Hsize _].
  discriminate Hsize.
Defined.

(** *** The cache headers *)

Lemma lookup_stage (flag : bool) (name value k : string)
      (res : ServerResponse) :
  _headers (stage flag name value res) !! k
  = if flag && String.eqb (JS.toLowerCase name) k then Some value
    else _headers res !! k.
Proof.
  destruct flag; cbn [stage andb]; [|reflexivity].
  destruct (String.eqb_spec (JS.toLowerCase name) k) as [<- | Hne];
    [apply lookup_with_header_eq | now apply lookup_with_header_ne].
Qed.

Lemma freshened_lookups (host : Host) (this : StaticServer)
      (stat : Fs.Stats) (res : ServerResponse) :
  let staged := _headers (freshened host this stat res) in
  staged !! "etag"
  = (if enableETag this then Some (generateETag stat)
     else _headers res !! "etag")
  /\ staged !! "last-modified"
     = (if enableLastModified this
        then Some (toUTCString host (Fs.mtime stat))
        else _headers res !! "last-modified")
  /\ staged !! "cache-control"
     = (if enableCacheControl this
        then Some ("public, max-age=" ++ JS.decimal (maxAge this))
        else _headers res !! "cache-control")
  /\ staged !! "expires"
     = (if enableExpires this
        then Some (toUTCString host (now host + maxAge this * 1000))
        else _headers res !! "expires")
  /\ forall k, k <> "etag" -> k <> "last-modified" ->
               k <> "cache-control" -> k <> "expires" ->
               staged !! k = _headers res !! k.
Proof.
  unfold freshened. cbv zeta.
  repeat apply conj; try (intros k H1 H2 H3 H4);
    rewrite !lookup_stage; lower_names.
  1-4: cbn [String.eqb Ascii.eqb Bool.eqb];
       rewrite !andb_false_r, andb_true_r; reflexivity.
  rewrite !(proj2 (String.eqb_neq _ _)) by (apply not_eq_sym; assumption).
  now rewrite !andb_false_r.
Qed.

(** X9.  On a new response [setFreshHeaders] returns without sending
    anything, and stages each of [ETag], [Last-Modified], [Cache-Control]
    and [Expires] exactly when its flag is on, with the entity tag, the
    date of the modification time, [public, max-age=] the configured age,
    and the date that lies that many seconds after now; it stages no other
    header. *)
Theorem setFreshHeaders_stages (host : Host) (this : StaticServer)
        (stat : Fs.Stats) :
  exists res,
    setFreshHeaders host this stat fresh_response = Returned tt res
    /\ statusCode res = 200 /\ headersSent res = false /\ ended res = []
    /\ _headers res !! "etag"
       = (if enableETag this then Some (generateETag stat) else None)
    /\ _headers res !! "last-modified"
       = (if enableLastModified this
          then Some (toUTCString host (Fs.mtime stat)) else None)
    /\ _headers res !! "cache-control"
       = (if enableCacheControl this
          then Some ("public, max-age=" ++ JS.decimal (maxAge this))
          else None)
    /\ _headers res !! "expires"
       = (if enableExpires this
          then Some (toUTCString host (now host + maxAge this * 1000))
          else None)
    /\ forall k, k <> "etag" -> k <> "last-modified" ->
                 k <> "cache-control" -> k <> "expires" ->
                 _headers res !! k = None.
Proof.
  exists (freshened host this stat fresh_response).
  destruct (freshened_invariant host this stat fresh_response)
    as (Hsent & Hstatus & Hended).
  destruct (freshened_lookups host this stat fresh_response)
    as (H1 & H2 & H3 & H4 & H5).
  split; [now apply setFreshHeaders_unsent|].
  repeat apply conj; auto.
Qed.

(** *** Revalidation *)

(** X10.  Revalidation round trip.  With entity tags enabled, a request
    that sends back the [ETag] of the file as [If-None-Match], and either
    no [If-Modified-Since] or the [Last-Modified] of the file, is answered
    304 without a body. *)
Theorem revalidation_round_trip (host : Host) (this : StaticServer)
        (pathName : string) (req : Request) (stat : Fs.Stats) :
  Fs.stat (fs host) pathName = Some stat ->
  enableETag this = true ->
  headers req !! "if-none-match" = Some (generateETag stat) ->
  (headers req !! "if-modified-since" = None
   \/ (enableLastModified this = true
       /\ headers req !! "if-modified-since"
          = Some (toUTCString host (Fs.mtime stat)))) ->
  not_modified host this stat
    (respond host this pathName req fresh_response).
Proof.
  intros Hstat Hflag Hinm Hims. unfold not_modified.
  rewrite (respond_found host this pathName req stat Hstat).
  destruct (freshened_lookups host this stat fresh_response)
    as (Hetag & Hlm & _).
  cbv zeta in Hetag, Hlm. rewrite Hflag in Hetag.
  assert (Hfresh : isFresh (headers req)
                     (_headers (freshened host this stat fresh_response))
                   = true).
  { apply isFresh_spec. unfold validators_match, nonempty.
    rewrite Hinm, Hetag. repeat split.
    - left. apply generateETag_truthy.
    - destruct Hims as [-> | [Hon ->]]; [discriminate|].
      intros _. now rewrite Hlm, Hon. }
  now rewrite Hfresh.
Qed.

Lemma revalidation_round_trip_witness :
  not_modified Demo.host Demo.this (Demo.file 120)
    (respond Demo.host Demo.this "/srv/www/docs/index.html"
       (Demo.GET "/docs/"
          [("if-none-match", generateETag (Demo.file 120));
           ("if-modified-since", Demo.notes_modified)])
       fresh_response).
Proof.
  exact (revalidation_round_trip
           Demo.host Demo.this "/srv/www/docs/index.html"
           (Demo.GET "/docs/"
              [("if-none-match", generateETag (Demo.file 120));
               ("if-modified-since", Demo.notes_modified)])
           (Demo.file 120) eq_refl eq_refl eq_refl
           (or_intror (conj eq_refl eq_refl))).
Defined.

(** X11.  With entity tags enabled, a client that sends the tag of an
    earlier state of the file, whose size or modification time has
    changed since, is never answered 304: the request goes on to
    [responseFile], whatever [If-Modified-Since] it carries. *)
Theorem stale_tag_not_304 (host : Host) (this : StaticServer)
        (pathName : string) (req : Request) (stat earlier : Fs.Stats) :
  Fs.stat (fs host) pathName = Some stat ->
  enableETag this = true ->
  0 <= Fs.size stat -> 0 <= Fs.size earlier ->
  Fs.size earlier <> Fs.size stat \/ Fs.mtime earlier <> Fs.mtime stat ->
  headers req !! "if-none-match" = Some (generateETag earlier) ->
  let out := respond host this pathName req fresh_response in
  out = responseFile host this stat pathName req
          (freshened host this stat fresh_response)
  /\ status_of out <> 304.
Proof.
  intros Hstat Hflag Hsize Hsize' Hchanged Hinm out.
  destruct (freshened_lookups host this stat fresh_response)
    as (Hetag & _).
  cbv zeta in Hetag. rewrite Hflag in Hetag.
  assert (Hfresh : isFresh (headers req)
                     (_headers (freshened host this stat fresh_response))
                   = false).
  { unfold isFresh. rewrite Hinm, Hetag, generateETag_truthy.
    cbn [orb negb andb]. unfold JS.strict_ne.
    rewrite bool_decide_eq_false_2; [reflexivity|].
    intros Heq.
    assert (Htag : generateETag earlier = generateETag stat) by congruence.
    apply generateETag_inj in Htag as [? ?]; [tauto | assumption..]. }
  assert (Hout : out = responseFile host this stat pathName req
                         (freshened host this stat fresh_response)).
  { subst out. rewrite (respond_found host this pathName req stat Hstat).
    now rewrite Hfresh. }
  split; [exact Hout|]. rewrite Hout.
  destruct (freshened_invariant host this stat fresh_response)
    as (Hsent & Hstatus & Hended).
  pose proof (responseFile_status host this stat pathName req _
                Hsent Hstatus Hended) as [Hcodes _].
  cbv zeta in Hcodes. lia.
Qed.

Lemma stale_tag_not_304_witness :
  status_of (respond Demo.host Demo.this "/srv/www/notes.txt"
               (Demo.GET "/notes.txt"
                  [("if-none-match", generateETag (Demo.file 9))])
               fresh_response) <> 304.
Proof.
  assert (Hchanged : Fs.size (Demo.file 9) <> Fs.size (Demo.file 10)
                     \/ Fs.mtime (Demo.file 9) <> Fs.mtime (Demo.file 10))
    by (left; discriminate).
  assert (Hsize : 0 <= Fs.size (Demo.file 10)) by discriminate.
  assert (Hsize' : 0 <= Fs.size (Demo.file 9)) by discriminate.
  exact (proj2 (stale_tag_not_304
                  Demo.host Demo.this "/srv/www/notes.txt"
                  (Demo.GET "/notes.txt"
                     [("if-none-match", generateETag (Demo.file 9))])
                  (Demo.file 10) (Demo.file 9) eq_refl eq_refl
                  Hsize Hsize' Hchanged eq_refl)).
Defined.

(** *** Whole files *)

Lemma compressHandler_no_token
      (readStream : stream) (req : Request) (res : ServerResponse) :
  (headers req !! "accept-encoding" = None
   \/ exists v, headers req !! "accept-encoding" = Some v
                /\ Regex.gzip v = false /\ Regex.deflate v = false) ->
  compressHandler readStream req res = Returned (Some readStream) res.
Proof.
  intros [H | (v & H & Hg & Hd)]; unfold compressHandler; rewrite H;
    [reflexivity|].
  cbn [header_match]. rewrite gzip_or_deflate_split, Hg, Hd.
  now rewrite orb_true_r.
Qed.

(** X12.  A request for an existing file that carries no validator, no
    [Range] and no [gzip] or [deflate] token (absent or empty headers
    count as none) is answered 200: the cache headers, [Content-Type] and
    [Accept-Ranges] are staged, nothing else is, and the body is the
    stream of the whole file, uncompressed. *)
Theorem plain_get_whole_file (host : Host) (this : StaticServer)
        (pathName : string) (req : Request) (stat : Fs.Stats) :
  Fs.stat (fs host) pathName = Some stat ->
  JS.truthy (headers req !! "if-none-match") = false ->
  JS.truthy (headers req !! "if-modified-since") = false ->
  JS.truthy (headers req !! "range") = false ->
  (headers req !! "accept-encoding" = None
   \/ exists v, headers req !! "accept-encoding" = Some v
                /\ Regex.gzip v = false /\ Regex.deflate v = false) ->
  let out := respond host this pathName req fresh_response in
  out = Returned tt
          (completed (Piped (FileStream pathName None))
             (with_header "Accept-Ranges" "bytes"
                (with_header "Content-Type" (mime_lookup host pathName)
                   (freshened host this stat fresh_response))))
  /\ status_of out = 200.
Proof.
  intros Hstat Hinm Hims Hrange Hae out.
  destruct (freshened_invariant host this stat fresh_response)
    as (Hsent & Hstatus & Hended).
  assert (Hout : out = Returned tt
                   (completed (Piped (FileStream pathName None))
                      (with_header "Accept-Ranges" "bytes"
                         (with_header "Content-Type"
                            (mime_lookup host pathName)
                            (freshened host this stat fresh_response))))).
  { subst out. rewrite (respond_found host this pathName req stat Hstat).
    unfold isFresh. rewrite Hinm, Hims. cbn [orb negb].
    unfold responseFile.
    unfold bind at 1. rewrite setHeader_unsent by exact Hsent.
    unfold bind at 1. rewrite setHeader_unsent by exact Hsent.
    rewrite Hrange. unfold send, bind. rewrite shouldCompress_always.
    now rewrite compressHandler_no_token. }
  split; [exact Hout|]. rewrite Hout. exact Hstatus.
Qed.

Lemma plain_get_whole_file_witness :
  status_of (respond Demo.host Demo.this "/srv/www/notes.txt"
               (Demo.GET "/notes.txt" []) fresh_response) = 200.
Proof.
  exact (proj2 (plain_get_whole_file
                  Demo.host Demo.this "/srv/www/notes.txt"
                  (Demo.GET "/notes.txt" []) (Demo.file 10)
                  eq_refl eq_refl eq_refl eq_refl (or_introl eq_refl))).
Defined.

(** *** Parameters of an encoding *)

Lemma gzip_then_separator (c : ascii) (rest : string) :
  JS.is_word c = false -> Regex.gzip ("gzip" ++ String c rest) = true.
Proof.
  intros Hc. unfold Regex.gzip.
  change ("gzip" ++ String c rest)
    with (String "g" (String "z" (String "i" (String "p" (String c rest))))).
  cbn [Regex.search]. unfold Regex.word_at at 1.
  cbn [Regex.strip_prefix]. rewrite !Ascii.eqb_refl.
  cbn [Regex.head JS.last_char]. unfold Regex.boundary at 1 2.
  rewrite Hc. reflexivity.
Qed.

(** X13.  The negotiation looks for the word [gzip] and reads nothing
    after it: when [Accept-Encoding] starts with [gzip] followed by any
    character that is not a word character, the stream is compressed with
    gzip whatever follows, a quality value of zero as in [gzip;q=0]
    included. *)
Theorem gzip_parameters_ignored
        (readStream : stream) (req : Request) (res : ServerResponse)
        (c : ascii) (rest : string) :
  headersSent res = false ->
  JS.is_word c = false ->
  headers req !! "accept-encoding" = Some ("gzip" ++ String c rest) ->
  compressHandler readStream req res
  = Returned (Some (Gzip readStream))
             (with_header "Content-Encoding" "gzip" res).
Proof.
  intros Hsent Hc Hae.
  apply (compressHandler_gzip_token readStream req res _ Hsent Hae).
  now apply gzip_then_separator.
Qed.

Lemma gzip_parameters_ignored_witness :
  compressHandler (FileStream "/srv/www/notes.txt" None)
                  (Demo.GET "/notes.txt" [("accept-encoding", "gzip;q=0")])
                  fresh_response
  = Returned (Some (Gzip (FileStream "/srv/www/notes.txt" None)))
             (with_header "Content-Encoding" "gzip" fresh_response).
Proof.
  exact (gzip_parameters_ignored
           (FileStream "/srv/www/notes.txt" None)
           (Demo.GET "/notes.txt" [("accept-encoding", "gzip;q=0")])
           fresh_response ";"%char "q=0" eq_refl eq_refl eq_refl).
Defined.

(** *** Directory listings *)

Lemma forEach_file_fails (host : Host) (pathName requestPath : string)
      (files : list string) (file : string) :
  In file files ->
  Fs.stat (fs host) (Path.join pathName file) = None ->
  forall content res,
    exists e,
      forEach_file host pathName requestPath files content res = Thrown e res.
Proof.
  intros Hin Hnone. induction files as [|f files IH]; [contradiction|].
  intros content res. cbn [forEach_file]. unfold bind, statSync.
  destruct (Fs.stat (fs host) (Path.join pathName f)) as [stat|] eqn:Hf.
  - destruct Hin as [-> | Hin]; [congruence|]. apply (IH Hin).
  - eexists. reflexivity.
Qed.

(** X14.  The listing is all or nothing.  When the directory has no index
    page and one of the names that [readdir] returned can no longer be
    found by [fs.statSync], the exception of [statSync] escapes the loop:
    no listing of the other entries is sent and the response is left as
    it was. *)
Theorem listing_fails_on_missing_entry (host : Host) (this : StaticServer)
        (pathName : string) (req : Request) (files : list string)
        (file : string) :
  Fs.existsSync (fs host) (Path.join pathName (indexPage this)) = false ->
  Fs.readdir (fs host) pathName = inr files ->
  In file files ->
  Fs.stat (fs host) (Path.join pathName file) = None ->
  exists e,
    respondDirectory host this pathName req fresh_response
    = Thrown e fresh_response.
Proof.
  intros Hindex Hdir Hin Hnone. unfold respondDirectory.
  rewrite Hindex, Hdir. unfold readdir_callback. rewrite bind_ret.
  unfold bind at 1.
  destruct (forEach_file_fails host pathName (url_pathname host (url req))
              files file Hin Hnone
              ("<h1>Index of " ++ url_pathname host (url req) ++ "</h1>")
              fresh_response) as [e ->].
  now exists e.
Qed.

Lemma listing_fails_on_missing_entry_witness :
  exists e,
    respondDirectory Demo.racing Demo.this "/srv/www/pub/"
                     (Demo.GET "/pub/" []) fresh_response
    = Thrown e fresh_response.
Proof.
  exact (listing_fails_on_missing_entry
           Demo.racing Demo.this "/srv/www/pub/" (Demo.GET "/pub/" [])
           ["a.txt"; "gone"] "gone" eq_refl eq_refl
           (or_intror (or_introl eq_refl)) eq_refl).
Defined.

(** *** Resolution of plain targets *)

Lemma last_char_append (a b : string) :
  b <> "" -> JS.last_char (a ++ b) = JS.last_char b.
Proof.
  intros Hb. induction a as [|x a IH]; [reflexivity|].
  rewrite append_cons. cbn [JS.last_char].
  destruct (a ++ b) eqn:Hab; [|exact IH].
  destruct a; [now rewrite append_empty in Hab | discriminate Hab].
Qed.

Lemma last_char_no_slash (s : string) (c : ascii) :
  has_slash s = false -> JS.last_char s = Some c ->
  Ascii.eqb c Path.slash = false.
Proof.
  induction s as [|x s IH]; [discriminate|]. cbn [has_slash JS.last_char].
  intros H Hlast. apply orb_false_iff in H as [Hx Hs].
  destruct s; [now injection Hlast as <- | now apply IH].
Qed.

Lemma trailing_plain (pre s : string) :
  plain s = true -> Path.trailingSeparator (pre ++ s) = false.
Proof.
  intros Hs. unfold Path.trailingSeparator.
  rewrite last_char_append by now apply plain_nonempty.
  destruct (JS.last_char s) as [c|] eqn:Hc; [|reflexivity].
  now apply (last_char_no_slash s c (plain_no_slash s Hs)).
Qed.

Lemma rooted_ends_plain (segs : list string) :
  segs <> [] -> Forall (fun seg => plain seg = true) segs ->
  exists pre s, plain s = true /\ rooted segs = pre ++ s.
Proof.
  intros Hne Hall. destruct segs as [|x l] using rev_ind; [congruence|].
  apply Forall_app in Hall as [_ Hlast]. inversion Hlast; subst.
  destruct l as [|y l'].
  - exists "/", x. now split.
  - exists ("/" ++ String.concat "/" (y :: l') ++ "/"), x.
    split; [assumption|]. unfold rooted.
    rewrite concat_app_nonempty by discriminate.
    change (String.concat "/" [x]) with x. now rewrite !append_assoc.
Qed.

Lemma trailing_rooted (pre : string) (segs : list string) :
  segs <> [] -> Forall (fun seg => plain seg = true) segs ->
  Path.trailingSeparator (pre ++ rooted segs) = false.
Proof.
  intros Hne Hall.
  destruct (rooted_ends_plain segs Hne Hall) as (p & s & Hs & ->).
  rewrite <- append_assoc. now apply trailing_plain.
Qed.

Lemma split_rooted (segs : list string) :
  segs <> [] -> Forall (fun seg => plain seg = true) segs ->
  Path.split (rooted segs) = "" :: segs.
Proof.
  intros Hne Hall. unfold rooted.
  change ("/" ++ String.concat "/" segs)
    with (String Path.slash (String.concat "/" segs)).
  cbn [Path.split]. rewrite Ascii.eqb_refl.
  now rewrite split_concat by assumption.
Qed.

Lemma concat_plain_eqb (segs : list string) :
  segs <> [] -> Forall (fun seg => plain seg = true) segs ->
  String.eqb (String.concat "/" segs) "" = false.
Proof.
  intros Hne Hall. destruct segs as [|s l]; [congruence|].
  inversion Hall; subst.
  destruct (concat_plain_nonempty s l) as (c & r & ->); auto.
Qed.

Lemma normalize_rooted_plain (segs : list string) :
  segs <> [] -> Forall (fun seg => plain seg = true) segs ->
  Path.normalize (rooted segs) = rooted segs.
Proof.
  intros Hne Hall. unfold Path.normalize.
  change (String.eqb (rooted segs) "") with false.
  change (Path.isAbsolute (rooted segs)) with true. cbv iota. cbn [negb].
  unfold Path.normalizeString.
  rewrite split_rooted by assumption. cbn [fold_left].
  rewrite step_empty, fold_step_plain, app_nil_r, rev_involutive
    by assumption.
  rewrite concat_plain_eqb by assumption.
  rewrite <- (append_empty (rooted segs)) at 1.
  now rewrite trailing_rooted by assumption.
Qed.

Lemma join_rooted_plain (rsegs tsegs : list string) :
  rsegs <> [] -> Forall (fun seg => plain seg = true) rsegs ->
  tsegs <> [] -> Forall (fun seg => plain seg = true) tsegs ->
  Path.join (rooted rsegs) (rooted tsegs) = rooted (rsegs ++ tsegs).
Proof.
  intros Hr Hrall Ht Htall. unfold Path.join.
  change (String.eqb (rooted rsegs) "") with false.
  change (String.eqb (rooted tsegs) "") with false. cbv iota.
  unfold Path.normalize.
  change (String.eqb (rooted rsegs ++ "/" ++ rooted tsegs) "") with false.
  change (Path.isAbsolute (rooted rsegs ++ "/" ++ rooted tsegs)) with true.
  cbv iota. cbn [negb]. unfold Path.normalizeString.
  rewrite split_app_slash, !split_rooted, fold_left_app by assumption.
  cbn [fold_left]. rewrite !step_empty.
  rewrite (fold_step_plain rsegs), app_nil_r by assumption.
  rewrite (fold_step_plain tsegs) by assumption.
  rewrite rev_app_distr, !rev_involutive.
  rewrite concat_plain_eqb
    by first [ apply Forall_app; split; assumption
             | destruct rsegs; [congruence | discriminate] ].
  rewrite <- (append_assoc (rooted rsegs) "/" (rooted tsegs)).
  now rewrite trailing_rooted by assumption.
Qed.

(** X15.  For a root and a request target that are both written as a
    slash followed by plain segments separated by single slashes, the
    listener hands to the router the root followed by the target, as it
    is.  Characters of the target play no part: a query string or a
    percent escape stays in the file name that is looked up. *)
Theorem start_plain_target (host : Host) (this : StaticServer)
        (req : Request) (rsegs tsegs : list string) :
  rsegs <> [] -> Forall (fun seg => plain seg = true) rsegs ->
  tsegs <> [] -> Forall (fun seg => plain seg = true) tsegs ->
  root this = rooted rsegs -> url req = rooted tsegs ->
  Path.join (root this) (Path.normalize (url req)) = root this ++ url req
  /\ start host this req
     = routeHandler host this (root this ++ url req) req.
Proof.
  intros Hr Hrall Ht Htall Hroot Hurl.
  assert (Hpath : Path.join (root this) (Path.normalize (url req))
                  = root this ++ url req).
  { rewrite Hroot, Hurl, normalize_rooted_plain, join_rooted_plain
      by assumption.
    unfold rooted. rewrite concat_app_nonempty by assumption.
    destruct tsegs; [congruence|]. now rewrite !append_assoc. }
  split; [exact Hpath|]. unfold start. now rewrite Hpath.
Qed.

Lemma start_plain_target_witness :
  Path.join (root Demo.this) (Path.normalize "/pub/a.txt?v=1")
  = "/srv/www/pub/a.txt?v=1".
Proof.
  exact (proj1 (start_plain_target
                  Demo.host Demo.this (Demo.GET "/pub/a.txt?v=1" [])
                  ["srv"; "www"] ["pub"; "a.txt?v=1"]
                  ltac:(discriminate) ltac:(repeat constructor)
                  ltac:(discriminate) ltac:(repeat constructor)
                  eq_refl eq_refl)).
Defined.

(** *** The listing that is sent *)

Lemma concat_empty_cons (x : string) (l : list string) :
  String.concat "" (x :: l) = x ++ String.concat "" l.
Proof.
  destruct l; cbn [String.concat];
    [now rewrite append_empty_r | now rewrite append_empty].
Qed.

Lemma forEach_file_content (host : Host) (pathName requestPath : string)
      (files : list string) (dirs : list bool) (content : string)
      (res : ServerResponse) :
  Forall2 (fun file dir =>
             exists stat, Fs.stat (fs host) (Path.join pathName file)
                          = Some stat
                          /\ Fs.isDirectory stat = dir) files dirs ->
  forEach_file host pathName requestPath files content res
  = Returned (content
              ++ String.concat ""
                   (zip_with (listing_entry requestPath) files dirs)) res.
Proof.
  intros Hall. revert content.
  induction Hall as [|file dir files dirs (stat & Hstat & Hdir) _ IH];
    intros content.
  - cbn [forEach_file zip_with String.concat].
    now rewrite append_empty_r.
  - cbn [forEach_file]. unfold bind at 1, statSync. rewrite Hstat.
    unfold ret at 1. rewrite IH, Hdir. cbn [zip_with].
    rewrite concat_empty_cons. unfold listing_entry.
    now rewrite !append_assoc.
Qed.

(** X17.  For a directory without index page, when [readdir] succeeds
    and every name it returns can be found by [statSync], the answer is
    200 with [Content-Type: text/html] and nothing else staged, and the
    body is the heading [Index of] the request path followed by one line
    for each name, in the order of [readdir]: a link to the name under
    the request path, with a closing slash exactly for directories. *)
Theorem listing_sent (host : Host) (this : StaticServer)
        (pathName : string) (req : Request)
        (files : list string) (dirs : list bool) :
  Fs.existsSync (fs host) (Path.join pathName (indexPage this)) = false ->
  Fs.readdir (fs host) pathName = inr files ->
  Forall2 (fun file dir =>
             exists stat, Fs.stat (fs host) (Path.join pathName file)
                          = Some stat
                          /\ Fs.isDirectory stat = dir) files dirs ->
  respondDirectory host this pathName req fresh_response
  = Returned tt
      (completed
         (Text ("<h1>Index of " ++ url_pathname host (url req) ++ "</h1>"
                ++ String.concat ""
                     (zip_with (listing_entry (url_pathname host (url req)))
                               files dirs)))
         (with_head 200 [("Content-Type", "text/html")] fresh_response)).
Proof.
  intros Hindex Hdir Hall. unfold respondDirectory.
  rewrite Hindex, Hdir. unfold readdir_callback. rewrite bind_ret.
  unfold bind at 1.
  rewrite (forEach_file_content host pathName _ files dirs _ _ Hall).
  rewrite !append_assoc. reflexivity.
Qed.

Lemma listing_sent_witness :
  respondDirectory Demo.host Demo.this "/srv/www/pub/"
                   (Demo.GET "/pub/" []) fresh_response
  = Returned tt
      (completed
         (Text ("<h1>Index of /pub/</h1>"
                ++ "<p><a href='/pub/a.txt'>a.txt</a></p>"
                ++ "<p><a href='/pub/sub/'>sub</a></p>"))
         (with_head 200 [("Content-Type", "text/html")] fresh_response)).
Proof.
  assert (Hall : Forall2
                   (fun file dir =>
                      exists stat,
                        Fs.stat (fs Demo.host)
                                (Path.join "/srv/www/pub/" file) = Some stat
                        /\ Fs.isDirectory stat = dir)
                   ["a.txt"; "sub"] [false; true]).
  { constructor; [exists (Demo.file 3); split; reflexivity|].
    constructor; [exists Demo.directory; split; reflexivity|].
    constructor. }
  exact (listing_sent Demo.host Demo.this "/srv/www/pub/"
           (Demo.GET "/pub/" []) ["a.txt"; "sub"] [false; true]
           eq_refl eq_refl Hall).
Defined.

(** *** One-sided ranges at the edges *)

Lemma rangeHandler_with (pathName rangeText : string) (totalSize : Z)
      (range : Range.t) (res : ServerResponse) :
  headersSent res = false ->
  getRange rangeText totalSize = Ok range ->
  rangeHandler pathName rangeText totalSize res
  = if JS.gtb (Range.start range) (JS.Num totalSize)
       || JS.gtb (Range.end_ range) (JS.Num totalSize)
       || JS.gtb (Range.start range) (Range.end_ range)
    then Returned None (unsatisfiable totalSize res)
    else Returned (Some (FileStream pathName
                           (Some (Range.start range, Range.end_ range))))
                  (partial range totalSize res).
Proof.
  intros Hsent Hrange.
  destruct (rangeHandler_cases pathName rangeText totalSize range res
              Hsent Hrange) as [[Hbad ->] | [Hok ->]].
  - apply out_of_bounds_test in Hbad. now rewrite Hbad.
  - destruct (_ || _ || _) eqn:Htest; [|reflexivity].
    apply out_of_bounds_test in Htest. contradiction.
Qed.

(** X18.  Suffix ranges against a file of [S] bytes.  [bytes=-N] with
    [1 <= N <= S] is served as 206 over the last [N] offsets,
    [S - N .. S - 1]; [bytes=-0] is answered 416. *)
Theorem suffix_range_edges (pathName : string) (totalSize N : Z)
        (res : ServerResponse) :
  headersSent res = false ->
  (1 <= N <= totalSize ->
   rangeHandler pathName ("bytes=-" ++ JS.decimal N) totalSize res
   = Returned
       (Some (FileStream pathName
                (Some (JS.Num (totalSize - N), JS.Num (totalSize - 1)))))
       (partial {| Range.start := JS.Num (totalSize - N);
                   Range.end_ := JS.Num (totalSize - 1) |} totalSize res))
  /\ rangeHandler pathName "bytes=-0" totalSize res
     = Returned None (unsatisfiable totalSize res).
Proof.
  intros Hsent. split.
  - intros HN.
    destruct (getRange_decimal totalSize N ltac:(lia)) as [Hrange _].
    rewrite (rangeHandler_with _ _ _ _ res Hsent Hrange). cbn.
    destruct (Z.gtb_spec (totalSize - N) totalSize); [lia|].
    destruct (Z.gtb_spec (totalSize - 1) totalSize); [lia|].
    destruct (Z.gtb_spec (totalSize - N) (totalSize - 1)); [lia|].
    reflexivity.
  - destruct (getRange_decimal totalSize 0 ltac:(lia)) as [Hrange _].
    change (JS.decimal 0) with "0" in Hrange.
    rewrite (rangeHandler_with _ _ _ _ res Hsent Hrange). cbn.
    destruct (Z.gtb_spec (totalSize - 0) totalSize); [reflexivity|].
    destruct (Z.gtb_spec (totalSize - 1) totalSize); [reflexivity|].
    destruct (Z.gtb_spec (totalSize - 0) (totalSize - 1));
      [reflexivity | lia].
Qed.

Lemma suffix_range_edges_witness :
  rangeHandler "/srv/www/notes.txt" "bytes=-10" 10 fresh_response
  = Returned
      (Some (FileStream "/srv/www/notes.txt" (Some (JS.Num 0, JS.Num 9))))
      (partial {| Range.start := JS.Num 0; Range.end_ := JS.Num 9 |}
               10 fresh_response).
Proof.
  assert (HN : 1 <= 10 <= 10) by lia.
  exact (proj1 (suffix_range_edges "/srv/www/notes.txt" 10 10
                  fresh_response eq_refl) HN).
Defined.

(** X19.  Open-ended ranges against a file of [S] bytes.  [bytes=a-]
    with [a < S] is served as 206 over [a .. S - 1]; with [a >= S], and
    so for every [a] when the file is empty, it is answered 416. *)
Theorem open_range_edges (pathName : string) (totalSize a : Z)
        (res : ServerResponse) :
  headersSent res = false -> 0 <= a ->
  (a < totalSize ->
   rangeHandler pathName ("bytes=" ++ JS.decimal a ++ "-") totalSize res
   = Returned
       (Some (FileStream pathName
                (Some (JS.Num a, JS.Num (totalSize - 1)))))
       (partial {| Range.start := JS.Num a;
                   Range.end_ := JS.Num (totalSize - 1) |} totalSize res))
  /\ (totalSize <= a ->
      rangeHandler pathName ("bytes=" ++ JS.decimal a ++ "-") totalSize res
      = Returned None (unsatisfiable totalSize res)).
Proof.
  intros Hsent Ha.
  destruct (getRange_decimal totalSize a Ha) as [_ Hrange].
  rewrite (rangeHandler_with _ _ _ _ res Hsent Hrange). cbn.
  split; intros Hcmp.
  - destruct (Z.gtb_spec a totalSize); [lia|].
    destruct (Z.gtb_spec (totalSize - 1) totalSize); [lia|].
    destruct (Z.gtb_spec a (totalSize - 1)); [lia|]. reflexivity.
  - destruct (Z.gtb_spec a totalSize); [reflexivity|].
    destruct (Z.gtb_spec (totalSize - 1) totalSize); [reflexivity|].
    destruct (Z.gtb_spec a (totalSize - 1)); [reflexivity | lia].
Qed.

Lemma open_range_edges_witness :
  rangeHandler "/srv/www/notes.txt" "bytes=10-" 10 fresh_response
  = Returned None (unsatisfiable 10 fresh_response).
Proof.
  assert (Ha : 0 <= 10) by lia.
  assert (Hcmp : 10 <= 10) by lia.
  exact (proj2 (open_range_edges "/srv/www/notes.txt" 10 10
                  fresh_response eq_refl Ha) Hcmp).
Defined.

(** X20.  What the validation does guarantee: whenever the handler opens
    a stream over a span with number bounds, the start is at most the
    end and both are at most the total size. *)
Theorem accepted_range_ordered
        (pathName rangeText : string) (totalSize : Z)
        (res res' : ServerResponse) (s : stream) :
  headersSent res = false ->
  rangeHandler pathName rangeText totalSize res = Returned (Some s) res' ->
  exists range,
    getRange rangeText totalSize = Ok range
    /\ s = FileStream pathName
             (Some (Range.start range, Range.end_ range))
    /\ statusCode res' = 206
    /\ forall a b, Range.start range = JS.Num a ->
                   Range.end_ range = JS.Num b ->
                   a <= b /\ a <= totalSize /\ b <= totalSize.
Proof.
  intros Hsent Hout.
  destruct (getRange rangeText totalSize) as [range|e] eqn:Hrange.
  - exists range.
    destruct (rangeHandler_cases pathName rangeText totalSize range res
                Hsent Hrange) as [[_ H] | [Hok H]];
      rewrite H in Hout; [discriminate|].
    injection Hout as <- <-.
    split; [reflexivity|]. split; [reflexivity|]. split; [reflexivity|].
    intros a b Ha Hb. unfold out_of_bounds in Hok.
    rewrite Ha, Hb in Hok. cbn in Hok. lia.
  - unfold rangeHandler in Hout. rewrite Hrange in Hout. discriminate.
Qed.

Lemma accepted_range_ordered_witness :
  exists range,
    getRange "bytes=2-5" 10 = Ok range
    /\ FileStream "/srv/www/notes.txt" (Some (JS.Num 2, JS.Num 5))
       = FileStream "/srv/www/notes.txt"
           (Some (Range.start range, Range.end_ range))
    /\ statusCode
         (partial {| Range.start := JS.Num 2; Range.end_ := JS.Num 5 |}
                  10 fresh_response) = 206
    /\ forall a b, Range.start range = JS.Num a ->
                   Range.end_ range = JS.Num b ->
                   a <= b /\ a <= 10 /\ b <= 10.
Proof.
  exact (accepted_range_ordered
           "/srv/www/notes.txt" "bytes=2-5" 10 fresh_response
           (partial {| Range.start := JS.Num 2; Range.end_ := JS.Num 5 |}
                    10 fresh_response)
           (FileStream "/srv/www/notes.txt" (Some (JS.Num 2, JS.Num 5)))
           eq_refl eq_refl).
Defined.

(** ** Range requests, from the header to the body *)

(** *** The steps of [responseFile] after the range is parsed *)

Lemma compressHandler_deflate_token
      (readStream : stream) (req : Request) (res : ServerResponse)
      (v : string) :
  headersSent res = false ->
  headers req !! "accept-encoding" = Some v ->
  Regex.gzip v = false -> Regex.deflate v = true ->
  compressHandler readStream req res
  = Returned (Some (Deflate readStream))
             (with_header "Content-Encoding" "deflate" res).
Proof.
  intros Hsent Hv Hg Hd. unfold compressHandler. rewrite Hv.
  cbn [header_match].
  rewrite gzip_or_deflate_split, Hg, Hd,
    (token_truthy Regex.deflate v eq_refl Hd).
  cbn. unfold bind. now rewrite setHeader_unsent.
Qed.

Lemma send_plain (this : StaticServer) (pathName : string) (req : Request)
      (s : stream) (res : ServerResponse) :
  no_token req ->
  send this pathName req s res = Returned tt (completed (Piped s) res).
Proof.
  intros Hno. unfold send, bind. rewrite shouldCompress_always.
  now rewrite (compressHandler_no_token s req res Hno).
Qed.

Lemma send_gzip (this : StaticServer) (pathName : string) (req : Request)
      (s : stream) (res : ServerResponse) (v : string) :
  headersSent res = false ->
  headers req !! "accept-encoding" = Some v -> Regex.gzip v = true ->
  send this pathName req s res
  = Returned tt (completed (Piped (Gzip s))
                   (with_header "Content-Encoding" "gzip" res)).
Proof.
  intros Hsent Hv Hg. unfold send, bind. rewrite shouldCompress_always.
  now rewrite (compressHandler_gzip_token s req res v Hsent Hv Hg).
Qed.

Lemma send_deflate (this : StaticServer) (pathName : string) (req : Request)
      (s : stream) (res : ServerResponse) (v : string) :
  headersSent res = false ->
  headers req !! "accept-encoding" = Some v ->
  Regex.gzip v = false -> Regex.deflate v = true ->
  send this pathName req s res
  = Returned tt (completed (Piped (Deflate s))
                   (with_header "Content-Encoding" "deflate" res)).
Proof.
  intros Hsent Hv Hg Hd. unfold send, bind. rewrite shouldCompress_always.
  now rewrite (compressHandler_deflate_token s req res v Hsent Hv Hg Hd).
Qed.

(** The three ways [send] can go, and no other. *)
Lemma send_cases (this : StaticServer) (pathName : string) (req : Request)
      (s : stream) (res : ServerResponse) :
  headersSent res = false ->
  (no_token req
   /\ send this pathName req s res = Returned tt (completed (Piped s) res))
  \/ (exists v, headers req !! "accept-encoding" = Some v
                /\ Regex.gzip v = true
                /\ send this pathName req s res
                   = Returned tt
                       (completed (Piped (Gzip s))
                          (with_header "Content-Encoding" "gzip" res)))
  \/ (exists v, headers req !! "accept-encoding" = Some v
                /\ Regex.gzip v = false /\ Regex.deflate v = true
                /\ send this pathName req s res
                   = Returned tt
                       (completed (Piped (Deflate s))
                          (with_header "Content-Encoding" "deflate" res))).
Proof.
  intros Hsent.
  destruct (headers req !! "accept-encoding") as [v|] eqn:Hv.
  - destruct (Regex.gzip v) eqn:Hg.
    + right. left. exists v. eauto using send_gzip.
    + destruct (Regex.deflate v) eqn:Hd.
      * right. right. exists v. eauto using send_deflate.
      * left. assert (Hno : no_token req) by (right; eauto).
        eauto using send_plain.
  - left. assert (Hno : no_token req) by (left; exact Hv).
    eauto using send_plain.
Qed.

(** A header that [getRange] parses is not empty: the branch of
    [responseFile] for range requests is the one that runs. *)
Lemma getRange_truthy (rangeText : string) (totalSize : Z) (range : Range.t) :
  getRange rangeText totalSize = Ok range ->
  JS.truthy (Some rangeText) = true.
Proof. destruct rangeText; [discriminate | reflexivity]. Qed.

Lemma responseFile_parsed (host : Host) (this : StaticServer)
      (stat : Fs.Stats) (pathName : string) (req : Request)
      (rangeText : string) (range : Range.t) (res : ServerResponse) :
  headersSent res = false ->
  headers req !! "range" = Some rangeText ->
  getRange rangeText (Fs.size stat) = Ok range ->
  (out_of_bounds range (Fs.size stat)
   /\ responseFile host this stat pathName req res
      = Returned tt (unsatisfiable (Fs.size stat) (typed host pathName res)))
  \/ (~ out_of_bounds range (Fs.size stat)
      /\ responseFile host this stat pathName req res
         = send this pathName req (ranged pathName range)
             (partial range (Fs.size stat) (typed host pathName res))).
Proof.
  intros Hsent Hrange Hparsed.
  pose proof (responseFile_ranged host this stat pathName req rangeText res
                Hsent Hrange (getRange_truthy _ _ _ Hparsed)) as Hfile.
  fold (typed host pathName res) in Hfile. unfold bind at 1 in Hfile.
  destruct (rangeHandler_cases pathName rangeText (Fs.size stat) range
              (typed host pathName res) Hsent Hparsed)
    as [[Hbad Hcase] | [Hok Hcase]]; rewrite Hcase in Hfile;
    [left | right]; (split; [assumption | exact Hfile]).
Qed.

(** *** What the streams deliver *)

Lemma delivers_ranged (content : list Byte.byte) (pathName : string)
      (first last : Z) :
  0 <= first -> first <= last ->
  delivers content (FileStream pathName (Some (JS.Num first, JS.Num last)))
  = Some (Raw (span content first last)).
Proof.
  intros Hfirst Hlast. cbn [delivers].
  destruct (Z.leb_spec 0 first); [|lia].
  destruct (Z.leb_spec first last); [|lia]. reflexivity.
Qed.

Lemma span_to_end (content : list Byte.byte) (first last : Z) :
  0 <= first -> Z.of_nat (length content) <= last + 1 ->
  span content first last = drop (Z.to_nat first) content.
Proof.
  intros Hfirst Hlast. unfold span.
  apply take_ge. rewrite length_drop. lia.
Qed.

Lemma served_piped {A} (content : list Byte.byte) (a : A) (s : stream)
      (res : ServerResponse) :
  ended res = [] ->
  served content (Returned a (completed (Piped s) res)) = delivers content s.
Proof. intros H. unfold served. cbn. now rewrite H. Qed.

Lemma served_unsatisfiable {A} (content : list Byte.byte) (a : A)
      (totalSize : Z) (res : ServerResponse) :
  ended res = [] ->
  served content (Returned a (unsatisfiable totalSize res)) = Some (Raw []).
Proof. intros H. unfold served. cbn. now rewrite H. Qed.


(** *** C2: the answer to a parsed range *)




(** *** C5: suffix and open-ended ranges *)

(** C5 as the specification words it fails on the code, on two requests
    for the ten bytes of [notes.txt].  For [bytes=-0] the parser gives
    the offsets 10 and 9, the start lies after the end and the answer is
    416: nothing is served.  For [bytes=-11] the parser gives the offsets
    -1 and 9: the file has no last eleven bytes to serve. *)
Lemma suffix_served_as_stated_counterexample :
  ~ suffix_served_as_stated Demo.host Demo.this (Demo.file 10)
      "/srv/www/notes.txt"
      (Demo.GET "/notes.txt" [("range", "bytes=-0")]) 0 Demo.ten_bytes
  /\ ~ suffix_served_as_stated Demo.host Demo.this (Demo.file 10)
        "/srv/www/notes.txt"
        (Demo.GET "/notes.txt" [("range", "bytes=-11")]) 11 Demo.ten_bytes.
Proof.
  split; intros H.
  - destruct (H eq_refl) as (_ & Hstatus & _).
    vm_compute in Hstatus. discriminate Hstatus.
  - destruct (H eq_refl) as (_ & _ & bytes & _ & -> & Hlen).
    vm_compute in Hlen. discriminate Hlen.
Qed.

(** C5, amended.  For a file of [S] bytes and a numeral [n] of value [N],
    both up to [JS.MAX_SAFE_INTEGER]: on [bytes=-n] the parser gives
    [start = S - N] and [end = S - 1], on [bytes=n-] it gives [start = N]
    and [end = S - 1].  A request with [bytes=-n] that names no encoding
    is answered, for [1 <= N <= S], 206 with the file stream over these
    offsets, which delivers the last [N] bytes of the file, and for
    [N = 0] 416 without a body.  A request with [bytes=n-] that names no
    encoding is answered, for [N < S], 206 with the bytes of the file
    from the offset [N] on, and for [S <= N] 416 without a body. *)
Theorem suffix_and_open_ended_ranges (host : Host) (this : StaticServer)
        (stat : Fs.Stats) (pathName : string) (req : Request) (n : string)
        (content : list Byte.byte) (res : ServerResponse) :
  JS.all_digits n = true -> n <> "" ->
  JS.digits_value 0 n <= JS.MAX_SAFE_INTEGER ->
  0 <= Fs.size stat <= JS.MAX_SAFE_INTEGER ->
  let total := Fs.size stat in
  let value := JS.digits_value 0 n in
  let suffix := {| Range.start := JS.Num (total - value);
                   Range.end_ := JS.Num (total - 1) |} in
  let open := {| Range.start := JS.Num value;
                 Range.end_ := JS.Num (total - 1) |} in
  let out := responseFile host this stat pathName req res in
  getRange ("bytes=-" ++ n) total = Ok suffix
  /\ getRange ("bytes=" ++ n ++ "-") total = Ok open
  /\ (headersSent res = false -> ended res = [] ->
      Z.of_nat (length content) = total -> no_token req ->
      (headers req !! "range" = Some ("bytes=-" ++ n) ->
       (1 <= value <= total ->
        out = Returned tt
                (completed (Piped (ranged pathName suffix))
                   (partial suffix total (typed host pathName res)))
        /\ served content out
           = Some (Raw (drop (Z.to_nat (total - value)) content))
        /\ Z.of_nat (length (drop (Z.to_nat (total - value)) content))
           = value)
       /\ (value = 0 ->
           out = Returned tt (unsatisfiable total (typed host pathName res))
           /\ served content out = Some (Raw [])))
      /\ (headers req !! "range" = Some ("bytes=" ++ n ++ "-") ->
          (value < total ->
           out = Returned tt
                   (completed (Piped (ranged pathName open))
                      (partial open total (typed host pathName res)))
           /\ served content out
              = Some (Raw (drop (Z.to_nat value) content))
           /\ Z.of_nat (length (drop (Z.to_nat value) content))
              = total - value)
          /\ (total <= value ->
              out = Returned tt
                      (unsatisfiable total (typed host pathName res))
              /\ served content out = Some (Raw [])))).
Proof.
  intros Hd Hne _ [Hsize _] total value suffix open out.
  destruct (getRange_one_sided total n Hd Hne) as [Hsuffix Hopen].
  fold value suffix in Hsuffix. fold value open in Hopen.
  split; [exact Hsuffix|]. split; [exact Hopen|].
  intros Hsent Hended Hlen Hno.
  assert (Hvalue : 0 <= value)
    by (apply digits_value_nonneg; lia).
  split; intros Hrange.
  - destruct (responseFile_parsed host this stat pathName req _ suffix res
                Hsent Hrange Hsuffix) as [[Hbad Hout] | [Hok Hout]];
      fold out total in Hout; unfold out_of_bounds in *;
      cbn [suffix Range.start Range.end_ JS.gt] in *.
    + split; [intros Hin; fold total in Hbad; lia|].
      intros _. split; [exact Hout|].
      rewrite Hout. now apply served_unsatisfiable.
    + split; [|intros Hzero; fold total in Hok; lia].
      intros Hin. rewrite (send_plain _ _ _ _ _ Hno) in Hout.
      split; [exact Hout|]. split.
      * rewrite Hout, served_piped by exact Hended.
        unfold ranged. cbn [suffix Range.start Range.end_].
        rewrite delivers_ranged by lia.
        now rewrite span_to_end by lia.
      * rewrite length_drop. lia.
  - destruct (responseFile_parsed host this stat pathName req _ open res
                Hsent Hrange Hopen) as [[Hbad Hout] | [Hok Hout]];
      fold out total in Hout; unfold out_of_bounds in *;
      cbn [open Range.start Range.end_ JS.gt] in *.
    + split; [intros Hin; fold total in Hbad; lia|].
      intros _. split; [exact Hout|].
      rewrite Hout. now apply served_unsatisfiable.
    + split; [|intros Hout'; fold total in Hok; lia].
      intros Hin. rewrite (send_plain _ _ _ _ _ Hno) in Hout.
      split; [exact Hout|]. split.
      * rewrite Hout, served_piped by exact Hended.
        unfold ranged. cbn [open Range.start Range.end_].
        rewrite delivers_ranged by lia.
        now rewrite span_to_end by lia.
      * rewrite length_drop. lia.
Qed.

Lemma suffix_and_open_ended_ranges_witness :
  getRange "bytes=-3" 10
  = Ok {| Range.start := JS.Num 7; Range.end_ := JS.Num 9 |}
  /\ getRange "bytes=3-" 10
     = Ok {| Range.start := JS.Num 3; Range.end_ := JS.Num 9 |}
  /\ served Demo.ten_bytes
       (responseFile Demo.host Demo.this (Demo.file 10) "/srv/www/notes.txt"
          (Demo.GET "/notes.txt" [("range", "bytes=-3")]) fresh_response)
     = Some (Raw [Byte.x37; Byte.x38; Byte.x39]).
Proof.
  assert (Hne : "3" <> "") by discriminate.
  assert (Hmax : JS.digits_value 0 "3" <= JS.MAX_SAFE_INTEGER)
    by (vm_compute; discriminate).
  assert (Hsize : 0 <= Fs.size (Demo.file 10) <= JS.MAX_SAFE_INTEGER)
    by (split; vm_compute; discriminate).
  assert (Hno : no_token (Demo.GET "/notes.txt" [("range", "bytes=-3")]))
    by (left; reflexivity).
  assert (Hin : 1 <= JS.digits_value 0 "3" <= Fs.size (Demo.file 10))
    by (split; vm_compute; discriminate).
  pose (T := suffix_and_open_ended_ranges
               Demo.host Demo.this (Demo.file 10) "/srv/www/notes.txt"
               (Demo.GET "/notes.txt" [("range", "bytes=-3")]) "3"
               Demo.ten_bytes fresh_response eq_refl Hne Hmax Hsize).
  exact (conj (proj1 T)
           (conj (proj1 (proj2 T))
              (proj1 (proj2
                 (proj1 (proj1 (proj2 (proj2 T) eq_refl eq_refl eq_refl Hno)
                                eq_refl) Hin))))).
Defined.

(** ** Targets that start with a slash *)

(** X16.  A request target that starts with a slash resolves to the root
    or below it, for a root given by plain segments: the resolved path is
    made of the segments of the root followed by plain segments only,
    none of them [.] or [..], possibly closed by a slash.  Whatever [..]
    the target holds, [path.normalize] clamps them at the target's own
    root before [path.join] puts the target under the server root. *)
Theorem rooted_target_resolves_below (rsegs : list string) (target : string) :
  rsegs <> [] -> Forall (fun seg => plain seg = true) rsegs ->
  Path.isAbsolute target = true ->
  below rsegs (Path.join (rooted rsegs) (Path.normalize target)).
Proof.
  intros Hne Hplain Habs.
  destruct (normalize_absolute_split target Habs) as (Hn & segs & Hsplit & Hsegs).
  destruct (fold_step_clean segs Hsegs) as (pushed & Hpushed & Hfold).
  unfold Path.join.
  change (String.eqb (rooted rsegs) "") with false. cbv iota.
  apply String.eqb_neq in Hn. rewrite Hn.
  set (n := Path.normalize target) in *.
  unfold Path.normalize.
  change (String.eqb (rooted rsegs ++ "/" ++ n) "") with false.
  change (Path.isAbsolute (rooted rsegs ++ "/" ++ n)) with true.
  cbv iota. cbn [negb]. unfold Path.normalizeString.
  rewrite split_app_slash, Hsplit.
  assert (Hroot : Path.split (rooted rsegs) = "" :: rsegs).
  { unfold rooted.
    change ("/" ++ String.concat "/" rsegs)
      with (String Path.slash (String.concat "/" rsegs)).
    cbn [Path.split]. rewrite Ascii.eqb_refl.
    now rewrite split_concat by assumption. }
  rewrite Hroot, fold_left_app. cbn [fold_left]. rewrite !step_empty.
  rewrite (fold_step_plain rsegs) by assumption. rewrite app_nil_r, Hfold.
  rewrite rev_app_distr, !rev_involutive.
  assert (Hall : Forall (fun seg => plain seg = true) (rsegs ++ pushed)%list)
    by (apply Forall_app; split; assumption).
  assert (Hsome : (rsegs ++ pushed)%list <> [])
    by (destruct rsegs; [congruence | discriminate]).
  rewrite (concat_plain_eqb _ Hsome Hall).
  exists pushed. split; [exact Hpushed|]. unfold rooted.
  destruct (Path.trailingSeparator _).
  - right. now rewrite append_assoc.
  - left. reflexivity.
Qed.

Lemma rooted_target_resolves_below_witness :
  below ["srv"; "www"]
        (Path.join "/srv/www" (Path.normalize "/../../etc/passwd")).
Proof.
  assert (Hne : ["srv"; "www"] <> []) by discriminate.
  assert (Hplain : Forall (fun seg => plain seg = true) ["srv"; "www"])
    by (repeat constructor).
  exact (rooted_target_resolves_below ["srv"; "www"] "/../../etc/passwd"
           Hne Hplain eq_refl).
Defined.
